(** * rcwtool: the S32G reset configuration word behind an MCP2221 bridge

    A shallow embedding of [utils/rcwtool.c].  The tool reads the 32-bit
    reset configuration word (RCW) stored at offset 0 of an I2C EEPROM,
    forces the boot source to I2C, selects the boot media, applies the SD
    defaults and writes the word back.

    Conventions of the embedding.
    - [uint32_t], [uint8_t], [int] and [unsigned int] values are integers
      of [Z]; a store into a bit-field keeps the low bits that fit, as C
      does.
    - The union [rcw_t] is one 32-bit word [boot_cfg]; its four bit-field
      structs are views of that word, and [data] is its memory image.
    - Bit-fields are allocated from the least significant bit upwards, in
      declaration order, as GCC and Clang do on the little-endian targets
      the tool is built for.  The byte-order conversions [le32toh] and
      [htole32] are modelled for both host byte orders.
    - [libmcp2221] (the transport), [getopt_long] and [sscanf] are not
      part of [rcwtool.c]: the transport and [sscanf] are parameters, and
      the command line is given as the sequence of results that
      [getopt_long] hands to [main]. *)

From Stdlib Require Import ZArith List String Ascii Bool Lia.
Import ListNotations.

Local Open Scope string_scope.
Local Open Scope list_scope.
Local Open Scope Z_scope.

(* ================================================================== *)
(** * Constants and enumerations *)
(* ================================================================== *)

Definition DEFAULT_EEPROM_ADDRESS : Z := 0x50.
Definition MAX_BUFSZ : nat := 60.

Definition IDX_HELP : Z := 0.
Definition IDX_ADDR : Z := 1.
Definition IDX_BOOT : Z := 2.

Definition WAIT_PERIOD_50MS : Z := 7.
Definition RCON_SRC_I2C : Z := 1.

Inductive boot_t : Set :=
| BOOT_QSPI
| BOOT_SD
| BOOT_MMC.

(** The enumerators' values: [BOOT_QSPI = 0], [BOOT_SD = 2], [BOOT_MMC = 3]. *)
Definition boot_val (b : boot_t) : Z :=
  match b with
  | BOOT_QSPI => 0
  | BOOT_SD => 2
  | BOOT_MMC => 3
  end.

(* ================================================================== *)
(** * Bit-fields *)
(* ================================================================== *)

Module Bitfield.

(** A bit-field declaration [uint32_t name:width]. *)
Definition decl : Type := string * Z.

(** The value of the field of [width] bits at bit [off] of [w]. *)
Definition get (off width w : Z) : Z :=
  Z.land (Z.shiftr w off) (Z.ones width).

(** The word [w] after the field at [off] has been assigned [v]: the
    field's bits are replaced by the low [width] bits of [v], the other
    bits are kept. *)
Definition set (off width w v : Z) : Z :=
  Z.lor (Z.ldiff w (Z.shiftl (Z.ones width) off))
        (Z.shiftl (Z.land v (Z.ones width)) off).

(** Position of a member in a struct of bit-fields: the sum of the
    widths declared before it, and its own width. *)
Fixpoint locate_from (off : Z) (l : list decl) (name : string)
  : option (Z * Z) :=
  match l with
  | [] => None
  | (n, width) :: rest =>
      if String.eqb n name then Some (off, width)
      else locate_from (off + width) rest name
  end.

Definition locate : list decl -> string -> option (Z * Z) :=
  locate_from 0.

(** The whole struct as the list of its members' values, in declaration
    order, and back. *)
Fixpoint unpack_from (off : Z) (l : list decl) (w : Z) : list Z :=
  match l with
  | [] => []
  | (_, width) :: rest => get off width w :: unpack_from (off + width) rest w
  end.

Fixpoint pack_from (off : Z) (l : list decl) (vs : list Z) : Z :=
  match l, vs with
  | (_, width) :: rest, v :: vs' =>
      Z.lor (Z.shiftl (Z.land v (Z.ones width)) off)
            (pack_from (off + width) rest vs')
  | _, _ => 0
  end.

Definition unpack : list decl -> Z -> list Z := unpack_from 0.
Definition pack : list decl -> list Z -> Z := pack_from 0.

(** Total width of a struct. *)
Definition bits (l : list decl) : Z :=
  fold_right (fun d acc => snd d + acc) 0 l.

(** Every member holds a value that fits its width. *)
Inductive fits : list decl -> list Z -> Prop :=
| fits_nil : fits [] []
| fits_cons n width v l vs :
    0 <= v < 2 ^ width -> fits l vs -> fits ((n, width) :: l) (v :: vs).

End Bitfield.

(* ================================================================== *)
(** * The union [rcw_t] *)
(* ================================================================== *)

(** The four bit-field structs of the union. *)
Inductive view : Set := rcon | sd | mmc | qspi.

Definition rcon_layout : list Bitfield.decl :=
  [ ("phy", 2); ("res0", 3); ("boot", 3); ("src", 1); ("res1", 6);
    ("xosc", 1); ("res2", 3); ("res3", 12); ("pll", 1) ].

Definition sd_layout : list Bitfield.decl :=
  [ ("phy", 2); ("res0", 3); ("boot", 3); ("src", 1); ("res1", 6);
    ("xosc", 1); ("wait", 3); ("speed", 1); ("res2", 11); ("pll", 1) ].

Definition mmc_layout : list Bitfield.decl :=
  [ ("phy", 2); ("res0", 3); ("boot", 3); ("src", 1); ("res1", 6);
    ("xosc", 1); ("wait", 3); ("mode", 4); ("res2", 8); ("pll", 1) ].

Definition qspi_layout : list Bitfield.decl :=
  [ ("phy", 2); ("mode", 3); ("boot", 3); ("src", 1); ("port", 1);
    ("ck2", 1); ("cas", 4); ("xosc", 1); ("por_delay", 3); ("ckn", 1);
    ("res3", 2); ("tdh", 2); ("fsphs", 1); ("fsdly", 1); ("dllfsmpf", 3);
    ("dqs_sel", 2); ("pll", 1) ].

Definition layout (v : view) : list Bitfield.decl :=
  match v with
  | rcon => rcon_layout
  | sd => sd_layout
  | mmc => mmc_layout
  | qspi => qspi_layout
  end.

(** [rcw.v.name] read as an rvalue.  A name the struct does not declare
    does not compile in C; here it reads as 0. *)
Definition rd (v : view) (name : string) (rcw : Z) : Z :=
  match Bitfield.locate (layout v) name with
  | Some (off, width) => Bitfield.get off width rcw
  | None => 0
  end.

(** [rcw.v.name = x]. *)
Definition wr (v : view) (name : string) (rcw x : Z) : Z :=
  match Bitfield.locate (layout v) name with
  | Some (off, width) => Bitfield.set off width rcw x
  | None => rcw
  end.

(* ================================================================== *)
(** * Byte order *)
(* ================================================================== *)

Inductive byte_order : Set := LittleEndian | BigEndian.

(** Bits [8i .. 8i+7] of [w]. *)
Definition octet (w i : Z) : Z := Z.land (Z.shiftr w (8 * i)) 255.

(** The word whose bytes are [b0] (least significant) to [b3]. *)
Definition word_of_octets (b0 b1 b2 b3 : Z) : Z :=
  Z.lor (Z.lor b0 (Z.shiftl b1 8))
        (Z.lor (Z.shiftl b2 16) (Z.shiftl b3 24)).

Definition bswap_32 (w : Z) : Z :=
  word_of_octets (octet w 3) (octet w 2) (octet w 1) (octet w 0).

Definition htole32 (host : byte_order) (w : Z) : Z :=
  match host with
  | LittleEndian => w
  | BigEndian => bswap_32 w
  end.

Definition le32toh (host : byte_order) (w : Z) : Z :=
  match host with
  | LittleEndian => w
  | BigEndian => bswap_32 w
  end.

(** The member [data] of the union when [boot_cfg] holds [w]: the bytes
    of the word in the host's memory order. *)
Definition data_of (host : byte_order) (w : Z) : list Z :=
  match host with
  | LittleEndian => [octet w 0; octet w 1; octet w 2; octet w 3]
  | BigEndian => [octet w 3; octet w 2; octet w 1; octet w 0]
  end.

(** The member [boot_cfg] of the union when [data] holds the bytes [d]
    (a byte is taken modulo 256, an absent byte reads as 0). *)
Definition data_byte (d : list Z) (i : nat) : Z := Z.land (nth i d 0) 255.

Definition boot_cfg_of (host : byte_order) (d : list Z) : Z :=
  match host with
  | LittleEndian =>
      word_of_octets (data_byte d 0) (data_byte d 1)
                     (data_byte d 2) (data_byte d 3)
  | BigEndian =>
      word_of_octets (data_byte d 3) (data_byte d 2)
                     (data_byte d 1) (data_byte d 0)
  end.

(** The four bytes [s32g_rcw_write] hands to [at24c01_write], and the
    word [s32g_rcw_read] leaves in [rcw->boot_cfg] after the bytes [d]
    were read into [rcw->data]. *)
Definition rcw_wire (host : byte_order) (rcw : Z) : list Z :=
  data_of host (htole32 host rcw).

Definition rcw_unwire (host : byte_order) (d : list Z) : Z :=
  le32toh host (boot_cfg_of host d).

(** Codec of a view: the struct's members to the wire and back. *)
Definition encode (host : byte_order) (v : view) (fields : list Z) : list Z :=
  rcw_wire host (Bitfield.pack (layout v) fields).

Definition decode (host : byte_order) (v : view) (d : list Z) : list Z :=
  Bitfield.unpack (layout v) (rcw_unwire host d).

(* ================================================================== *)
(** * Value-to-label tables *)
(* ================================================================== *)

Definition wait_period_to_ms (p : Z) : Z :=
  if p =? 1 then 5
  else if p =? 2 then 10
  else if p =? 3 then 20
  else if p =? 4 then 35
  else if p =? WAIT_PERIOD_50MS then 50
  else 0.

Definition boot_to_str (boot : Z) : string :=
  if boot =? 0 then "QSPI"
  else if boot =? 2 then "SD"
  else if boot =? 3 then "MMC"
  else "?".

Definition src_to_str (src : Z) : string :=
  if src =? 0 then "parallel"
  else if src =? RCON_SRC_I2C then "I2C"
  else "?".

Definition xosc_to_str (xosc : Z) : string :=
  if xosc =? 0 then "differential/crystal"
  else if xosc =? 1 then "bypass"
  else "?".

Definition pll_to_str (pll : Z) : string :=
  if pll =? 0 then "PLL@IRC"
  else if pll =? 1 then "IRC@48MHz"
  else "?".

Definition phy_to_str (phy : Z) : string :=
  if phy =? 0 then "RMII"
  else if phy =? 1 then "SGMII"
  else if phy =? 2 then "RGMII"
  else if phy =? 3 then "No PHY"
  else "?".

(* ================================================================== *)
(** * Programs: hardware state, output and early return *)
(* ================================================================== *)

(** An argument of a [printf] call. *)
Inductive printf_arg : Type :=
| ArgS (s : string)          (* %s *)
| ArgD (n : Z)               (* %d *)
| ArgX (n : Z)               (* %x *)
| ArgC (c : ascii)           (* %c *)
| ArgErrno.                  (* strerror(errno), text not modelled *)

(** A call into libmcp2221, with the arguments that matter. *)
Inductive call : Type :=
| mcp_init
| mcp_exit
| mcp_find
| mcp_open
| mcp_open_byIndex (num : Z)
| mcp_i2cState
| mcp_i2cCancel
| mcp_i2cDivider (div : Z)
| mcp_i2cWriteRead (address : Z) (w_buf : list Z) (r_len : nat).

(** What a run does, in order. *)
Inductive event : Type :=
| Puts (s : string)
| Printf (fmt : string) (args : list printf_arg)
| Eprintf (fmt : string) (args : list printf_arg)   (* fprintf(stderr, ...) *)
| Diagnostic    (* what getopt_long prints on stderr for an option it
                   rejects; text not modelled *)
| Call (c : call).

(** How a piece of [main] ends: it falls through with a value, [main]
    returns, or an array is accessed out of its bounds (undefined
    behaviour in C). *)
Inductive result (A : Type) : Type :=
| Next (a : A)
| Return (code : Z)
| OutOfBounds.

Arguments Next {A} a.
Arguments Return {A} code.
Arguments OutOfBounds {A}.

(** The library, as far as [rcwtool.c] uses it, over a hardware state
    [S].  A device handle is modelled by whether it is non-NULL; status
    codes and I2C states are the integers of the library's enums. *)
Record libmcp2221 (S : Type) : Type := {
  MCP2221_SUCCESS : Z;
  MCP2221_I2C_IDLE : Z;
  mcp2221_init : S -> S;
  mcp2221_exit : S -> S;
  mcp2221_find : S -> Z * S;
  mcp2221_open : S -> bool * S;
  mcp2221_open_byIndex : Z -> S -> bool * S;
  mcp2221_i2cState : S -> (Z * Z) * S;
  mcp2221_i2cCancel : S -> S;
  mcp2221_i2cDivider : Z -> S -> Z * S;
  mcp2221_i2cWriteRead : Z -> list Z -> nat -> S -> (Z * list Z) * S
}.

Arguments MCP2221_SUCCESS {S} _.
Arguments MCP2221_I2C_IDLE {S} _.
Arguments mcp2221_init {S} _ _.
Arguments mcp2221_exit {S} _ _.
Arguments mcp2221_find {S} _ _.
Arguments mcp2221_open {S} _ _.
Arguments mcp2221_open_byIndex {S} _ _ _.
Arguments mcp2221_i2cState {S} _ _.
Arguments mcp2221_i2cCancel {S} _ _.
Arguments mcp2221_i2cDivider {S} _ _ _.
Arguments mcp2221_i2cWriteRead {S} _ _ _ _ _.

Definition prog (S A : Type) : Type := S -> result A * S * list event.

Definition ret {S A} (a : A) : prog S A := fun s => (Next a, s, []).

Definition bind {S A B} (m : prog S A) (k : A -> prog S B) : prog S B :=
  fun s =>
    match m s with
    | (Next a, s1, t1) => let '(r, s2, t2) := k a s1 in (r, s2, t1 ++ t2)
    | (Return code, s1, t1) => (Return code, s1, t1)
    | (OutOfBounds, s1, t1) => (OutOfBounds, s1, t1)
    end.

Definition return_ {S A} (code : Z) : prog S A := fun s => (Return code, s, []).

Definition out_of_bounds {S A} : prog S A := fun s => (OutOfBounds, s, []).

Definition emit {S} (e : event) : prog S unit := fun s => (Next tt, s, [e]).

Definition puts {S} (s : string) : prog S unit := emit (Puts s).
Definition printf {S} (fmt : string) (args : list printf_arg) : prog S unit :=
  emit (Printf fmt args).
Definition eprintf {S} (fmt : string) (args : list printf_arg) : prog S unit :=
  emit (Eprintf fmt args).

(** A library call: logged, then run on the hardware state. *)
Definition invoke {S A} (c : call) (f : S -> A * S) : prog S A :=
  fun s => let '(a, s') := f s in (Next a, s', [Call c]).

Definition invoke_ {S} (c : call) (f : S -> S) : prog S unit :=
  fun s => (Next tt, f s, [Call c]).

Declare Scope prog_scope.
Delimit Scope prog_scope with prog.
Notation "x <- m ;; k" := (bind m (fun x => k))
  (at level 61, m at next level, right associativity) : prog_scope.
Notation "m ;; k" := (bind m (fun _ => k))
  (at level 61, right associativity) : prog_scope.

(** [memcpy(&dst[pos], src, n)] on arrays of known size: defined only when
    the [n] bytes lie inside both arrays. *)
Definition memcpy (dst : list Z) (pos : nat) (src : list Z) (n : nat)
  : option (list Z) :=
  if (n <=? List.length src)%nat && (pos + n <=? List.length dst)%nat
  then Some (firstn pos dst ++ firstn n src ++ skipn (pos + n) dst)
  else None.

(** [getopt_long] as [main] sees it: one result per loop iteration.
    [Long i optarg] is a return value of 0 with [option_index = i];
    [Short c] is a returned option character (['h'], or ['?'] for what
    [getopt_long] rejects).  [short_options] does not start with a colon
    and [opterr] is left as it is, so with every ['?'] it returns
    [getopt_long] has printed a diagnostic on the standard error. *)
Inductive getopt_result : Type :=
| Long (option_index : Z) (optarg : string)
| Short (c : ascii).

(** The two locals of [main] the options set. *)
Record options : Type := {
  boot_media : boot_t;
  eeprom_address : Z
}.

Section Rcwtool.

Context {S : Type}.

(** The library the tool is linked with. *)
Variable lib : libmcp2221 S.

(** Byte order of the host. *)
Variable host : byte_order.

(** [sscanf(optarg, "%x", &eeprom_address)]: the [int] stored, or [None]
    when no conversion takes place and the variable keeps its value. *)
Variable sscanf_x : string -> option Z.

(** [scanf("%d", &num)] on the standard input, likewise. *)
Variable scanf_d : option Z.

(** [bool changed;] is declared without initialiser: the value it holds
    when no assignment has reached it. *)
Variable changed_uninit : bool.

Local Open Scope prog_scope.

Definition print_help : prog S unit :=
  puts "mcp_eeprom: read/write EEPROM connected to I2C" ;;
  puts "usage: mcp_eeprom [options]" ;;
  puts "    -h|--help                 print this help\n" ;;
  puts "    --addr=<address>          7-bit I2C address (hex)\n" ;;
  puts "    --boot=<qspi,sd,mmc>      define boot media\n".

Definition at24c01_read (address offset : Z) (r_len : nat)
  : prog S (Z * list Z) :=
  invoke (mcp_i2cWriteRead address [offset] r_len)
         (mcp2221_i2cWriteRead lib address [offset] r_len).

(** [wbuf] has [MAX_BUFSZ+1] elements; the ones [memcpy] does not reach
    are indeterminate and never transmitted (0 here). *)
Definition at24c01_write (address offset : Z) (w_buf : list Z) (w_len : nat)
  : prog S Z :=
  let wbuf := repeat 0 (MAX_BUFSZ + 1) in
  let wbuf := offset :: tl wbuf in
  match memcpy wbuf 1 w_buf w_len with
  | None => out_of_bounds
  | Some wbuf =>
      let sent := firstn (w_len + 1) wbuf in
      r <- invoke (mcp_i2cWriteRead address sent 0)
                  (mcp2221_i2cWriteRead lib address sent 0) ;;
      ret (fst r)
  end.

(** Returns the status and the new value of [rcw->boot_cfg]. *)
Definition s32g_rcw_read (address : Z) : prog S (Z * Z) :=
  r <- at24c01_read address 0 4 ;;
  ret (fst r, rcw_unwire host (snd r)).

Definition s32g_rcw_write (address : Z) (rcw : Z) : prog S Z :=
  at24c01_write address 0 (rcw_wire host rcw) 4.

Definition print_rcw (rcw : Z) : prog S unit :=
  puts "RCW" ;;
  puts "=================================" ;;
  printf "    PHY:   %s\n" [ArgS (phy_to_str (rd rcon "phy" rcw))] ;;
  printf "    BOOT:  %s\n" [ArgS (boot_to_str (rd rcon "boot" rcw))] ;;
  printf "    SRC:   %s\n" [ArgS (src_to_str (rd rcon "src" rcw))] ;;
  printf "    XOSC:  %s\n" [ArgS (xosc_to_str (rd rcon "xosc" rcw))] ;;
  printf "    PLL:   %s\n" [ArgS (pll_to_str (rd rcon "pll" rcw))] ;;
  if rd rcon "boot" rcw =? boot_val BOOT_SD then
    printf "    WAIT:  %dms\n" [ArgD (wait_period_to_ms (rd sd "wait" rcw))] ;;
    printf "    SPEED: %s\n"
           [ArgS (if rd sd "speed" rcw =? 0 then "default" else "high")]
  else ret tt.

(** The option loop of [main]. *)
Fixpoint parse_args (args : list getopt_result) (o : options)
  : prog S options :=
  match args with
  | [] => ret o
  | Long option_index optarg :: rest =>
      if option_index =? IDX_HELP then
        print_help ;; return_ 0
      else if option_index =? IDX_ADDR then
        parse_args rest
          match sscanf_x optarg with
          | Some a => {| boot_media := boot_media o; eeprom_address := a |}
          | None => o
          end
      else if option_index =? IDX_BOOT then
        parse_args rest
          (if String.eqb optarg "qspi" then
             {| boot_media := BOOT_QSPI; eeprom_address := eeprom_address o |}
           else if String.eqb optarg "sd" then
             {| boot_media := BOOT_SD; eeprom_address := eeprom_address o |}
           else if String.eqb optarg "mmc" then
             {| boot_media := BOOT_MMC; eeprom_address := eeprom_address o |}
           else o)
      else parse_args rest o
  | Short c :: rest =>
      if Ascii.eqb c "h" then print_help ;; return_ 0
      else if Ascii.eqb c "?" then emit Diagnostic ;; parse_args rest o
      else parse_args rest o
  end.

(** Lines 362-384 of [main]: the three steps on [rcw] and [changed]. *)
Definition boot_policy (changed : bool) (target : boot_t) (rcw : Z)
  : Z * bool :=
  let '(rcw, changed) :=
    if negb (rd rcon "src" rcw =? RCON_SRC_I2C)
    then (wr rcon "src" rcw RCON_SRC_I2C, true)
    else (rcw, changed) in
  let '(rcw, changed) :=
    if negb (rd rcon "boot" rcw =? boot_val target)
    then (wr rcon "boot" 0 (boot_val target), true)
    else (rcw, changed) in
  if rd rcon "boot" rcw =? boot_val BOOT_SD then
    let '(rcw, changed) :=
      if rd sd "speed" rcw =? 0
      then (wr sd "speed" rcw 1, true)
      else (rcw, changed) in
    if negb (rd sd "wait" rcw =? WAIT_PERIOD_50MS)
    then (wr sd "wait" rcw WAIT_PERIOD_50MS, true)
    else (rcw, changed)
  else (rcw, changed).

(** Lines 386-406 of [main]: write, read again, print. *)
Definition write_back (address rcw : Z) (changed : bool) : prog S unit :=
  if changed then
    res <- s32g_rcw_write address rcw ;;
    if negb (res =? MCP2221_SUCCESS lib) then
      eprintf "Error: cannot write RCW: rv=%d!\n" [ArgD res] ;;
      invoke_ mcp_exit (mcp2221_exit lib) ;;
      return_ (-1)
    else
      r <- s32g_rcw_read address ;;
      if negb (fst r =? MCP2221_SUCCESS lib) then
        eprintf "Error: cannot read RCW: rv=%d!\n" [ArgD (fst r)] ;;
        invoke_ mcp_exit (mcp2221_exit lib) ;;
        return_ (-1)
      else
        printf "RCW: 0x%08x\n" [ArgX (snd r)] ;;
        print_rcw (snd r)
  else ret tt.

(** Lines 288-322 of [main]: find and open the bridge. *)
Definition open_device : prog S unit :=
  invoke_ mcp_init (mcp2221_init lib) ;;
  count <- invoke mcp_find (mcp2221_find lib) ;;
  if count =? 0 then
    puts "Note: no devices found!" ;;
    invoke_ mcp_exit (mcp2221_exit lib) ;;
    return_ (-1)
  else
    printf "Found %d device%c\n"
           [ArgD count; ArgC (if count =? 1 then " "%char else "s"%char)] ;;
    dev <- (if count =? 1 then invoke mcp_open (mcp2221_open lib)
            else
              printf "Found %d devices\n" [ArgD count] ;;
              printf "Enter number of desired device [0-%d]: "
                     [ArgD (count - 1)] ;;
              let num := match scanf_d with Some n => n | None => 0 end in
              if (num <? 0) || (num >=? count) then
                eprintf "Error: illegal device number out of range!" [] ;;
                invoke_ mcp_exit (mcp2221_exit lib) ;;
                return_ (-1)
              else invoke (mcp_open_byIndex num)
                          (mcp2221_open_byIndex lib num)) ;;
    if negb dev then
      eprintf "Error: cannot open MCP2221 device: %s\n" [ArgErrno] ;;
      invoke_ mcp_exit (mcp2221_exit lib) ;;
      return_ (-1)
    else ret tt.

(** Lines 330-349 of [main]: cancel a pending transfer, set the clock. *)
Definition prepare_bus : prog S unit :=
  r <- invoke mcp_i2cState (mcp2221_i2cState lib) ;;
  if negb (fst r =? MCP2221_SUCCESS lib) then
    eprintf "Error: cannot get state!\n" [] ;;
    invoke_ mcp_exit (mcp2221_exit lib) ;;
    return_ (-1)
  else
    (if negb (snd r =? MCP2221_I2C_IDLE lib)
     then invoke_ mcp_i2cCancel (mcp2221_i2cCancel lib)
     else ret tt) ;;
    res <- invoke (mcp_i2cDivider 27) (mcp2221_i2cDivider lib 27) ;;
    if negb (res =? MCP2221_SUCCESS lib) then
      eprintf "Error: cannot set divider!\n" [] ;;
      invoke_ mcp_exit (mcp2221_exit lib) ;;
      return_ (-1)
    else ret tt.

(** Lines 351-410 of [main], once the options are known. *)
Definition read_modify_write (o : options) : prog S Empty_set :=
  r <- s32g_rcw_read (eeprom_address o) ;;
  if negb (fst r =? MCP2221_SUCCESS lib) then
    eprintf "Error: cannot read RCW: rv=%d!\n" [ArgD (fst r)] ;;
    invoke_ mcp_exit (mcp2221_exit lib) ;;
    return_ (-1)
  else
    printf "RCW: 0x%08x\n" [ArgX (snd r)] ;;
    print_rcw (snd r) ;;
    let p := boot_policy changed_uninit (boot_media o) (snd r) in
    write_back (eeprom_address o) (fst p) (snd p) ;;
    invoke_ mcp_exit (mcp2221_exit lib) ;;
    return_ 0.

Definition main (args : list getopt_result) : prog S Empty_set :=
  puts "rcwtool: read/write I2C-EEPROM" ;;
  o <- parse_args args {| boot_media := BOOT_SD;
                          eeprom_address := DEFAULT_EEPROM_ADDRESS |} ;;
  if (eeprom_address o <? 0) || (eeprom_address o >? 0x7f) then
    eprintf "Error: illegal address: 0x%02x!\n" [ArgX (eeprom_address o)] ;;
    return_ (-1)
  else
    open_device ;;
    prepare_bus ;;
    read_modify_write o.

End Rcwtool.

(** The exit status, the events and the final hardware state of a run. *)
Definition status {S} (r : result Empty_set * S * list event) : option Z :=
  match fst (fst r) with
  | Return code => Some code
  | OutOfBounds => None
  | Next e => match e with end
  end.

Definition events {S A} (r : result A * S * list event) : list event := snd r.

Definition final {S A} (r : result A * S * list event) : S := snd (fst r).

Definition is_hardware_access (e : event) : bool :=
  match e with Call _ => true | _ => false end.

Definition is_error_message (e : event) : bool :=
  match e with Eprintf _ _ => true | _ => false end.

(** A transfer that only writes (no byte read back), and one that reads. *)
Definition is_write (e : event) : bool :=
  match e with
  | Call (mcp_i2cWriteRead _ _ O) => true
  | _ => false
  end.

(* ================================================================== *)
(** * Vocabulary of the statements *)
(* ================================================================== *)

(** The conditions under which the three steps of the policy fire, on
    the word as it was read.  The third step looks at the word the second
    step leaves: after a switch of boot media that word has speed 0. *)
Definition step_src (rcw : Z) : bool :=
  negb (rd rcon "src" rcw =? RCON_SRC_I2C).

Definition step_boot (target : boot_t) (rcw : Z) : bool :=
  negb (rd rcon "boot" rcw =? boot_val target).

Definition step_sd (target : boot_t) (rcw : Z) : bool :=
  match target with
  | BOOT_SD =>
      step_boot BOOT_SD rcw
      || (rd sd "speed" rcw =? 0)
      || negb (rd sd "wait" rcw =? WAIT_PERIOD_50MS)
  | _ => false
  end.

(** A word the policy has nothing to do on: boot source I2C, boot media
    the target and, for SD, high speed and the 50 ms wait period. *)
Definition compliant (target : boot_t) (rcw : Z) : bool :=
  (rd rcon "src" rcw =? RCON_SRC_I2C)
  && (rd rcon "boot" rcw =? boot_val target)
  && match target with
     | BOOT_SD =>
         (rd sd "speed" rcw =? 1) && (rd sd "wait" rcw =? WAIT_PERIOD_50MS)
     | _ => true
     end.

(** Whether the option loop meets a help request, and the options it ends
    with when it does not. *)
Fixpoint requests_help (args : list getopt_result) : bool :=
  match args with
  | [] => false
  | Long option_index _ :: rest =>
      (option_index =? IDX_HELP) || requests_help rest
  | Short c :: rest => Ascii.eqb c "h" || requests_help rest
  end.

(** What [getopt_long] prints while the loop runs: one diagnostic for
    each option it rejects, up to the first help request. *)
Definition diagnostic (a : getopt_result) : list event :=
  match a with
  | Short c => if Ascii.eqb c "?" then [Diagnostic] else []
  | Long _ _ => []
  end.

Fixpoint getopt_messages (args : list getopt_result) : list event :=
  match args with
  | [] => []
  | a :: rest =>
      if requests_help [a] then [] else diagnostic a ++ getopt_messages rest
  end.

(** A run that comes after the output [t]. *)
Definition with_output {S A} (t : list event) (r : result A * S * list event)
  : result A * S * list event :=
  (fst (fst r), snd (fst r), t ++ snd r).

(** Lines 283-410 of [main], as a program of the options the loop
    leaves: the check of the address, then the session with the bridge. *)
Definition after_options {S} (lib : libmcp2221 S) (host : byte_order)
    (scanf_d : option Z) (changed_uninit : bool) (o : options)
  : prog S Empty_set :=
  if (eeprom_address o <? 0) || (eeprom_address o >? 0x7f) then
    bind (eprintf "Error: illegal address: 0x%02x!\n"
                  [ArgX (eeprom_address o)])
         (fun _ => return_ (-1))
  else
    bind (open_device lib scanf_d)
         (fun _ => bind (prepare_bus lib)
                        (fun _ => read_modify_write lib host changed_uninit o)).

(** What a run leaves on the standard error. *)
Definition on_stderr (e : event) : bool :=
  match e with
  | Eprintf _ _ | Diagnostic => true
  | _ => false
  end.

Definition is_boot_option (a : getopt_result) : bool :=
  match a with
  | Long option_index _ =>
      negb (option_index =? IDX_HELP) && negb (option_index =? IDX_ADDR)
      && (option_index =? IDX_BOOT)
  | Short _ => false
  end.

Definition is_addr_option (a : getopt_result) : bool :=
  match a with
  | Long option_index _ =>
      negb (option_index =? IDX_HELP) && (option_index =? IDX_ADDR)
  | Short _ => false
  end.

Definition boot_token (s : string) : option boot_t :=
  if String.eqb s "qspi" then Some BOOT_QSPI
  else if String.eqb s "sd" then Some BOOT_SD
  else if String.eqb s "mmc" then Some BOOT_MMC
  else None.

Section Options.

Variable sscanf_x : string -> option Z.

Definition option_step (o : options) (a : getopt_result) : options :=
  match a with
  | Long option_index optarg =>
      if is_addr_option a then
        match sscanf_x optarg with
        | Some x => {| boot_media := boot_media o; eeprom_address := x |}
        | None => o
        end
      else if is_boot_option a then
        match boot_token optarg with
        | Some b => {| boot_media := b; eeprom_address := eeprom_address o |}
        | None => o
        end
      else o
  | Short _ => o
  end.

Definition options_after (args : list getopt_result) (o : options)
  : options :=
  fold_left option_step args o.

End Options.

Definition default_options : options :=
  {| boot_media := BOOT_SD; eeprom_address := DEFAULT_EEPROM_ADDRESS |}.

(** Options that assign [boot_media], and options that assign
    [eeprom_address]. *)
Definition sets_boot_media (a : getopt_result) : bool :=
  match a with
  | Long _ optarg =>
      is_boot_option a
      && match boot_token optarg with Some _ => true | None => false end
  | Short _ => false
  end.

Definition sets_address (sscanf_x : string -> option Z) (a : getopt_result)
  : bool :=
  match a with
  | Long _ optarg =>
      is_addr_option a
      && match sscanf_x optarg with Some _ => true | None => false end
  | Short _ => false
  end.

(** The calls into the library a run makes, in order. *)
Definition calls (t : list event) : list call :=
  flat_map (fun e => match e with Call c => [c] | _ => [] end) t.

(** The lines [print_rcw] prints for a word. *)
Definition report (rcw : Z) : list event := events (print_rcw rcw tt).

(** The lines [print_help] prints. *)
Definition help_text : list event := events (print_help tt).



(* ================================================================== *)
(** * A simulated bridge and EEPROM, to run [main] on concrete inputs *)
(* ================================================================== *)

(** Not part of the tool: a stand-in for the hardware and the C library,
    used only to evaluate the definitions above in examples. *)
Module Sim.

Record state : Type := {
  eeprom : list Z;          (* content of the EEPROM, from offset 0 *)
  i2c_address : Z;          (* address the EEPROM answers to *)
  write_protect : bool;     (* WP pin high: writes are acknowledged and dropped *)
  bridges : Z;              (* number of MCP2221 bridges plugged in *)
  pending : bool            (* a transfer of an earlier run is pending *)
}.

Definition SUCCESS : Z := 0.
Definition ERROR : Z := -1.
Definition IDLE : Z := 0.
Definition BUSY : Z := 1.

Definition store (mem : list Z) (offset : nat) (bytes : list Z) : list Z :=
  firstn offset mem ++ bytes ++ skipn (offset + List.length bytes) mem.

Definition i2cWriteRead (address : Z) (w_buf : list Z) (r_len : nat)
                        (s : state) : (Z * list Z) * state :=
  if negb (address =? i2c_address s) then ((ERROR, []), s)
  else
    match w_buf with
    | [] => ((ERROR, []), s)
    | offset :: payload =>
        let o := Z.to_nat offset in
        let s' :=
          if write_protect s then s
          else {| eeprom := store (eeprom s) o payload;
                  i2c_address := i2c_address s;
                  write_protect := write_protect s;
                  bridges := bridges s;
                  pending := pending s |} in
        ((SUCCESS, firstn r_len (skipn o (eeprom s'))), s')
    end.

Definition cancel (s : state) : state :=
  {| eeprom := eeprom s; i2c_address := i2c_address s;
     write_protect := write_protect s; bridges := bridges s;
     pending := false |}.

Definition lib : libmcp2221 state := {|
  MCP2221_SUCCESS := SUCCESS;
  MCP2221_I2C_IDLE := IDLE;
  mcp2221_init := fun s => s;
  mcp2221_exit := fun s => s;
  mcp2221_find := fun s => (bridges s, s);
  mcp2221_open := fun s => (0 <? bridges s, s);
  mcp2221_open_byIndex := fun n s => ((0 <=? n) && (n <? bridges s), s);
  mcp2221_i2cState := fun s => ((SUCCESS, if pending s then BUSY else IDLE), s);
  mcp2221_i2cCancel := cancel;
  mcp2221_i2cDivider := fun _ s => (SUCCESS, s);
  mcp2221_i2cWriteRead := i2cWriteRead
|}.

(** One bridge, an idle bus, an EEPROM at 0x50 holding [bytes]. *)
Definition board (bytes : list Z) (wp : bool) : state :=
  {| eeprom := bytes; i2c_address := 0x50; write_protect := wp;
     bridges := 1; pending := false |}.

(** The [%x] conversion of the C library: white space is skipped, then
    an optional sign and an optional [0x] or [0X] prefix are taken, then
    the hexadecimal digits that follow, of which there must be at least
    one.  The value, negated after a minus sign, is stored into an [int]
    through [unsigned int]; a value beyond 64 bits is taken as the
    largest 64-bit value. *)
Definition hex_digit (c : ascii) : option Z :=
  let n := Z.of_nat (nat_of_ascii c) in
  if (48 <=? n) && (n <=? 57) then Some (n - 48)
  else if (97 <=? n) && (n <=? 102) then Some (n - 87)
  else if (65 <=? n) && (n <=? 70) then Some (n - 55)
  else None.

Fixpoint hex_digits (s : string) (acc : option Z) : option Z :=
  match s with
  | EmptyString => acc
  | String c rest =>
      match hex_digit c with
      | Some d =>
          hex_digits rest
            (Some (16 * match acc with Some a => a | None => 0 end + d))
      | None => acc
      end
  end.

Definition is_space (c : ascii) : bool :=
  let n := Z.of_nat (nat_of_ascii c) in
  (n =? 32) || ((9 <=? n) && (n <=? 13)).

Fixpoint skip_spaces (s : string) : string :=
  match s with
  | String c rest => if is_space c then skip_spaces rest else s
  | EmptyString => s
  end.

(** The digits after an optional prefix. *)
Definition hex_magnitude (s : string) : option Z :=
  match s with
  | String "0" (String x rest) =>
      if Ascii.eqb x "x" || Ascii.eqb x "X"
      then hex_digits rest None
      else hex_digits s None
  | _ => hex_digits s None
  end.

Definition to_int (v : Z) : Z := (v + 2 ^ 31) mod 2 ^ 32 - 2 ^ 31.

Definition clamp64 (v : Z) : Z := if 2 ^ 64 <=? v then 2 ^ 64 - 1 else v.

Definition sscanf_x (s : string) : option Z :=
  match skip_spaces s with
  | String "-" rest =>
      option_map (fun v => to_int (- clamp64 v)) (hex_magnitude rest)
  | String "+" rest =>
      option_map (fun v => to_int (clamp64 v)) (hex_magnitude rest)
  | rest => option_map (fun v => to_int (clamp64 v)) (hex_magnitude rest)
  end.

(** A run of [main] on a little-endian host, with nothing typed on the
    standard input. *)
Definition run (changed_uninit : bool) (args : list getopt_result)
               (s : state) :=
  main lib LittleEndian sscanf_x None changed_uninit args s.

End Sim.


(* ================================================================== *)
(** * Bit-level lemmas *)
(* ================================================================== *)

(** Settles every comparison of the goal that [lia] can decide. *)
Ltac decide_cmp :=
  repeat match goal with
    | |- context [?a <? ?b] =>
        first [ rewrite (proj2 (Z.ltb_lt a b)) by lia
              | rewrite (proj2 (Z.ltb_ge a b)) by lia ]
    | |- context [?a <=? ?b] =>
        first [ rewrite (proj2 (Z.leb_le a b)) by lia
              | rewrite (proj2 (Z.leb_gt a b)) by lia ]
    end.

Lemma testbit_small v width n :
  0 <= v < 2 ^ width -> width <= n -> Z.testbit v n = false.
Proof.
  intros Hv Hn.
  assert (0 <= width).
  { destruct (Z.le_gt_cases 0 width) as [|Hneg]; [assumption|].
    rewrite (Z.pow_neg_r 2 width) in Hv by lia. lia. }
  rewrite <- (Z.mod_small v (2 ^ width)) by assumption.
  apply Z.mod_pow2_bits_high. lia.
Qed.

Lemma testbit_ones_any width n :
  0 <= width -> Z.testbit (Z.ones width) n = (0 <=? n) && (n <? width).
Proof.
  intros Hw. destruct (Z.leb_spec 0 n); simpl.
  - destruct (Z.ltb_spec n width).
    + apply Z.ones_spec_low. lia.
    + apply Z.ones_spec_high. lia.
  - apply Z.testbit_neg_r. assumption.
Qed.

Lemma testbit_shiftl_any a k n :
  0 <= k -> Z.testbit (Z.shiftl a k) n = (k <=? n) && Z.testbit a (n - k).
Proof.
  intros Hk. destruct (Z.leb_spec k n); simpl.
  - apply Z.shiftl_spec. lia.
  - destruct (Z.le_gt_cases 0 n).
    + apply Z.shiftl_spec_low. assumption.
    + apply Z.testbit_neg_r. assumption.
Qed.

Module BitfieldFacts.
Import Bitfield.

Lemma get_spec off width w n :
  0 <= off -> 0 <= width ->
  Z.testbit (get off width w) n =
  (0 <=? n) && (n <? width) && Z.testbit w (n + off).
Proof.
  intros Ho Hw. unfold get.
  rewrite Z.land_spec, testbit_ones_any by assumption.
  destruct (Z.leb_spec 0 n); simpl.
  - rewrite Z.shiftr_spec by assumption. apply andb_comm.
  - apply andb_false_r.
Qed.

Lemma set_spec off width w v n :
  0 <= off -> 0 <= width -> 0 <= n ->
  Z.testbit (set off width w v) n =
  if (off <=? n) && (n <? off + width)
  then Z.testbit v (n - off) else Z.testbit w n.
Proof.
  intros Ho Hw Hn. unfold set.
  rewrite Z.lor_spec, Z.ldiff_spec, !testbit_shiftl_any by assumption.
  rewrite Z.land_spec, !testbit_ones_any by assumption.
  destruct (Z.leb_spec off n); simpl.
  - destruct (Z.ltb_spec n (off + width)); decide_cmp; simpl.
    + rewrite andb_false_r, andb_true_r. reflexivity.
    + rewrite andb_false_r, andb_true_r, orb_false_r. reflexivity.
  - rewrite andb_true_r, orb_false_r. reflexivity.
Qed.

Lemma get_range off width w :
  0 <= off -> 0 <= width -> 0 <= get off width w < 2 ^ width.
Proof.
  intros Ho Hw. unfold get. rewrite Z.land_ones by assumption.
  apply Z.mod_pos_bound. apply Z.pow_pos_nonneg; lia.
Qed.

Lemma get_set_same off width w v :
  0 <= off -> 0 <= width ->
  get off width (set off width w v) = v mod 2 ^ width.
Proof.
  intros Ho Hw. apply Z.bits_inj'. intros n Hn.
  rewrite get_spec, set_spec by lia.
  destruct (Z.ltb_spec n width); decide_cmp; simpl.
  - rewrite Z.mod_pow2_bits_low by lia. f_equal. lia.
  - rewrite Z.mod_pow2_bits_high by lia. reflexivity.
Qed.

Lemma get_set_other off width off' width' w v :
  0 <= off -> 0 <= width -> 0 <= off' -> 0 <= width' ->
  off + width <= off' \/ off' + width' <= off ->
  get off' width' (set off width w v) = get off' width' w.
Proof.
  intros Ho Hw Ho' Hw' Hdisj. apply Z.bits_inj'. intros n Hn.
  rewrite !get_spec, set_spec by lia.
  destruct (Z.ltb_spec n width'); decide_cmp; simpl; [|reflexivity].
  destruct Hdisj; decide_cmp; simpl; reflexivity.
Qed.

End BitfieldFacts.

Module OctetFacts.
Import Bitfield BitfieldFacts.

Lemma octet_get w i : octet w i = get (8 * i) 8 w.
Proof. reflexivity. Qed.

Lemma octet_spec w i n :
  0 <= i ->
  Z.testbit (octet w i) n =
  (0 <=? n) && (n <? 8) && Z.testbit w (n + 8 * i).
Proof. intros Hi. rewrite octet_get. apply get_spec; lia. Qed.

Lemma octet_range w i : 0 <= i -> 0 <= octet w i < 256.
Proof.
  intros Hi. rewrite octet_get. change 256 with (2 ^ 8).
  apply get_range; lia.
Qed.

Lemma byte_testbit_out b k :
  0 <= b < 256 -> k < 0 \/ 8 <= k -> Z.testbit b k = false.
Proof.
  intros Hb [Hk|Hk].
  - apply Z.testbit_neg_r. assumption.
  - apply (testbit_small b 8); [exact Hb | assumption].
Qed.

Lemma land_255_byte b : 0 <= b < 256 -> Z.land b 255 = b.
Proof.
  intros Hb. change 255 with (Z.ones 8).
  rewrite Z.land_ones by lia. apply Z.mod_small. exact Hb.
Qed.

Lemma word_of_octets_spec b0 b1 b2 b3 m :
  Z.testbit (word_of_octets b0 b1 b2 b3) m =
  (Z.testbit b0 m || (8 <=? m) && Z.testbit b1 (m - 8))
  || ((16 <=? m) && Z.testbit b2 (m - 16)
      || (24 <=? m) && Z.testbit b3 (m - 24)).
Proof.
  unfold word_of_octets.
  rewrite !Z.lor_spec, !testbit_shiftl_any by lia. reflexivity.
Qed.

(** Clears the bits of bytes that lie outside the byte. *)
Ltac clear_out_of_byte :=
  repeat match goal with
    | Hb : 0 <= ?b < 256 |- context [Z.testbit ?b ?k] =>
        rewrite (byte_testbit_out b k Hb) by lia
    end;
  rewrite ?andb_false_r, ?orb_false_r, ?orb_false_l.

Section Bytes.
Variables b0 b1 b2 b3 : Z.
Hypothesis H0 : 0 <= b0 < 256.
Hypothesis H1 : 0 <= b1 < 256.
Hypothesis H2 : 0 <= b2 < 256.
Hypothesis H3 : 0 <= b3 < 256.

Lemma octet_0_word : octet (word_of_octets b0 b1 b2 b3) 0 = b0.
Proof.
  apply Z.bits_inj'. intros n Hn.
  rewrite octet_spec, word_of_octets_spec by lia.
  destruct (Z.ltb_spec n 8); decide_cmp; cbn [andb orb]; clear_out_of_byte;
    try reflexivity; f_equal; lia.
Qed.

Lemma octet_1_word : octet (word_of_octets b0 b1 b2 b3) 1 = b1.
Proof.
  apply Z.bits_inj'. intros n Hn.
  rewrite octet_spec, word_of_octets_spec by lia.
  destruct (Z.ltb_spec n 8); decide_cmp; cbn [andb orb]; clear_out_of_byte;
    try reflexivity; f_equal; lia.
Qed.

Lemma octet_2_word : octet (word_of_octets b0 b1 b2 b3) 2 = b2.
Proof.
  apply Z.bits_inj'. intros n Hn.
  rewrite octet_spec, word_of_octets_spec by lia.
  destruct (Z.ltb_spec n 8); decide_cmp; cbn [andb orb]; clear_out_of_byte;
    try reflexivity; f_equal; lia.
Qed.

Lemma octet_3_word : octet (word_of_octets b0 b1 b2 b3) 3 = b3.
Proof.
  apply Z.bits_inj'. intros n Hn.
  rewrite octet_spec, word_of_octets_spec by lia.
  destruct (Z.ltb_spec n 8); decide_cmp; cbn [andb orb]; clear_out_of_byte;
    try reflexivity; f_equal; lia.
Qed.

End Bytes.

Lemma word_of_octets_octet w :
  word_of_octets (octet w 0) (octet w 1) (octet w 2) (octet w 3)
  = w mod 2 ^ 32.
Proof.
  apply Z.bits_inj'. intros n Hn.
  rewrite word_of_octets_spec, !octet_spec by lia.
  assert (Hcase : n < 8 \/ 8 <= n < 16 \/ 16 <= n < 24
                  \/ 24 <= n < 32 \/ 32 <= n) by lia.
  destruct Hcase as [H|[H|[H|[H|H]]]]; decide_cmp; cbn [andb orb];
    rewrite ?orb_false_r;
    first [ rewrite Z.mod_pow2_bits_low by lia; f_equal; lia
          | rewrite Z.mod_pow2_bits_high by lia; reflexivity ].
Qed.

Lemma octet_mod w i : 0 <= i < 4 -> octet (w mod 2 ^ 32) i = octet w i.
Proof.
  intros Hi. apply Z.bits_inj'. intros n Hn.
  rewrite !octet_spec by lia.
  destruct (Z.ltb_spec n 8); decide_cmp; cbn [andb orb]; [|reflexivity].
  apply Z.mod_pow2_bits_low. lia.
Qed.

Lemma bswap_32_involutive w : bswap_32 (bswap_32 w) = w mod 2 ^ 32.
Proof.
  unfold bswap_32 at 1.
  unfold bswap_32.
  rewrite octet_0_word, octet_1_word, octet_2_word, octet_3_word
    by (apply octet_range; lia).
  apply word_of_octets_octet.
Qed.

Lemma bswap_32_mod w : bswap_32 (w mod 2 ^ 32) = bswap_32 w.
Proof. unfold bswap_32. rewrite !octet_mod by lia. reflexivity. Qed.

Lemma boot_cfg_of_data_of host w :
  boot_cfg_of host (data_of host w) = w mod 2 ^ 32.
Proof.
  destruct host; unfold boot_cfg_of, data_of, data_byte; simpl nth;
    rewrite !land_255_byte by (apply octet_range; lia);
    apply word_of_octets_octet.
Qed.

(** Writing the word and reading it back gives the word itself, reduced
    to 32 bits. *)
Lemma rcw_unwire_wire host w : rcw_unwire host (rcw_wire host w) = w mod 2 ^ 32.
Proof.
  unfold rcw_unwire, rcw_wire. rewrite boot_cfg_of_data_of.
  destruct host; simpl.
  - reflexivity.
  - rewrite bswap_32_mod. apply bswap_32_involutive.
Qed.

(** The wire image is little-endian on either host. *)
Lemma rcw_wire_octets host w :
  rcw_wire host w = [octet w 0; octet w 1; octet w 2; octet w 3].
Proof.
  destruct host; unfold rcw_wire, data_of, htole32; [reflexivity|].
  unfold bswap_32.
  rewrite octet_0_word, octet_1_word, octet_2_word, octet_3_word
    by (apply octet_range; lia).
  reflexivity.
Qed.

Lemma rcw_unwire_octets host b0 b1 b2 b3 :
  0 <= b0 < 256 -> 0 <= b1 < 256 -> 0 <= b2 < 256 -> 0 <= b3 < 256 ->
  rcw_unwire host [b0; b1; b2; b3] = word_of_octets b0 b1 b2 b3.
Proof.
  intros H0 H1 H2 H3.
  destruct host; unfold rcw_unwire, boot_cfg_of, data_byte, le32toh;
    simpl nth; rewrite !land_255_byte by assumption; [reflexivity|].
  unfold bswap_32.
  rewrite octet_0_word, octet_1_word, octet_2_word, octet_3_word
    by assumption.
  reflexivity.
Qed.

End OctetFacts.

Module PackFacts.
Import Bitfield BitfieldFacts.

Lemma fits_width_nonneg : forall l vs,
  fits l vs -> Forall (fun d => 0 <= snd d) l.
Proof.
  induction 1 as [|n width v l vs Hv _ IH]; constructor; [|exact IH].
  simpl. destruct (Z.le_gt_cases 0 width) as [|Hneg]; [assumption|].
  rewrite (Z.pow_neg_r 2 width) in Hv by lia. lia.
Qed.

(** A packed struct has no bit below the offset it starts at. *)
Lemma pack_from_low : forall l vs off n,
  0 <= off -> Forall (fun d => 0 <= snd d) l -> n < off ->
  Z.testbit (pack_from off l vs) n = false.
Proof.
  induction l as [|[name width] l IH]; intros vs off n Hoff Hl Hn.
  - apply Z.testbit_0_l.
  - destruct vs as [|v vs]; [apply Z.testbit_0_l|].
    inversion Hl as [|? ? Hw Hl']; subst. simpl in Hw.
    cbn [pack_from]. rewrite Z.lor_spec, testbit_shiftl_any by assumption.
    decide_cmp. cbn [andb orb]. apply IH; lia || assumption.
Qed.

(** Reading back the first member. *)
Lemma get_pack_head off width v rest :
  0 <= off -> 0 <= v < 2 ^ width ->
  (forall n, n < off + width -> Z.testbit rest n = false) ->
  get off width (Z.lor (Z.shiftl (Z.land v (Z.ones width)) off) rest) = v.
Proof.
  intros Hoff Hv Hrest.
  assert (0 <= width).
  { destruct (Z.le_gt_cases 0 width) as [|Hneg]; [assumption|].
    rewrite (Z.pow_neg_r 2 width) in Hv by lia. lia. }
  apply Z.bits_inj'. intros n Hn.
  rewrite get_spec, Z.lor_spec, testbit_shiftl_any, Z.land_spec,
    testbit_ones_any by lia.
  destruct (Z.ltb_spec n width); decide_cmp; cbn [andb orb].
  - rewrite Hrest by lia. rewrite andb_true_r, orb_false_r. f_equal. lia.
  - symmetry. apply (testbit_small v width); lia.
Qed.

(** A member stored below does not show in the members above it. *)
Lemma get_pack_above off width v rest off' width' :
  0 <= off -> 0 <= width -> off + width <= off' -> 0 <= width' ->
  get off' width' (Z.lor (Z.shiftl (Z.land v (Z.ones width)) off) rest)
  = get off' width' rest.
Proof.
  intros Hoff Hw Hle Hw'. apply Z.bits_inj'. intros n Hn.
  rewrite !get_spec, Z.lor_spec, testbit_shiftl_any, Z.land_spec,
    testbit_ones_any by lia.
  decide_cmp. cbn [andb orb]. rewrite andb_false_r. reflexivity.
Qed.

Lemma unpack_from_above : forall l off' off width v rest,
  0 <= off -> 0 <= width -> off + width <= off' ->
  Forall (fun d => 0 <= snd d) l ->
  unpack_from off' l (Z.lor (Z.shiftl (Z.land v (Z.ones width)) off) rest)
  = unpack_from off' l rest.
Proof.
  induction l as [|[name width'] l IH]; intros off' off width v rest
    Hoff Hw Hle Hl; [reflexivity|].
  inversion Hl as [|? ? Hw' Hl']; subst. simpl in Hw'.
  cbn [unpack_from]. f_equal.
  - apply get_pack_above; assumption.
  - apply IH; lia || assumption.
Qed.

Lemma unpack_from_pack_from : forall l vs,
  fits l vs -> forall off, 0 <= off ->
  unpack_from off l (pack_from off l vs) = vs.
Proof.
  induction 1 as [|name width v l vs Hv Hfits IH]; intros off Hoff;
    [reflexivity|].
  pose proof (fits_width_nonneg _ _ Hfits) as Hl.
  assert (0 <= width).
  { destruct (Z.le_gt_cases 0 width) as [|Hneg]; [assumption|].
    rewrite (Z.pow_neg_r 2 width) in Hv by lia. lia. }
  cbn [unpack_from pack_from]. f_equal.
  - apply get_pack_head; try assumption.
    intros n Hn. apply pack_from_low; lia || assumption.
  - rewrite unpack_from_above by (lia || assumption).
    apply IH. lia.
Qed.

Lemma unpack_pack l vs : fits l vs -> unpack l (pack l vs) = vs.
Proof. intros H. apply unpack_from_pack_from; [exact H | lia]. Qed.

(** Members inside the low 32 bits do not see what lies above. *)
Lemma unpack_from_mod : forall l off w,
  0 <= off -> Forall (fun d => 0 <= snd d) l -> off + bits l <= 32 ->
  unpack_from off l (w mod 2 ^ 32) = unpack_from off l w.
Proof.
  induction l as [|[name width] l IH]; intros off w Hoff Hl Hbits;
    [reflexivity|].
  inversion Hl as [|? ? Hw Hl']; subst. simpl in Hw.
  assert (0 <= bits l).
  { clear - Hl'. induction Hl' as [|d l Hd _ IHl]; simpl; lia. }
  unfold bits in Hbits. cbn [fold_right snd] in Hbits. fold (bits l) in Hbits.
  cbn [unpack_from]. f_equal.
  - apply Z.bits_inj'. intros n Hn. rewrite !get_spec by lia.
    destruct (Z.ltb_spec n width); decide_cmp; cbn [andb]; [|reflexivity].
    apply Z.mod_pow2_bits_low. lia.
  - apply IH; lia || assumption.
Qed.

Lemma layout_bits v : bits (layout v) = 32.
Proof. destruct v; reflexivity. Qed.

Lemma layout_widths v : Forall (fun d => 0 <= snd d) (layout v).
Proof. destruct v; repeat constructor; simpl; lia. Qed.

End PackFacts.

(** The position of every member read or written by the tool. *)
Lemma rd_get v name off width w :
  Bitfield.locate (layout v) name = Some (off, width) ->
  rd v name w = Bitfield.get off width w.
Proof. intros H. unfold rd. rewrite H. reflexivity. Qed.

Lemma wr_set v name off width w x :
  Bitfield.locate (layout v) name = Some (off, width) ->
  wr v name w x = Bitfield.set off width w x.
Proof. intros H. unfold wr. rewrite H. reflexivity. Qed.

(* ================================================================== *)
(** * The views share the generic members *)
(* ================================================================== *)

(** C9.  In each of the four views of the word, generic, SD, MMC and
    QSPI, [phy] is bits 0-1, [boot] is bits 5-7, [src] is bit 8 and [pll]
    is bit 31; so each of these members reads the same through every
    view of one word. *)
Theorem generic_members_layout_invariant :
  forall (v : view) (rcw : Z),
    Bitfield.locate (layout v) "phy" = Some (0, 2)
    /\ Bitfield.locate (layout v) "boot" = Some (5, 3)
    /\ Bitfield.locate (layout v) "src" = Some (8, 1)
    /\ Bitfield.locate (layout v) "pll" = Some (31, 1)
    /\ rd v "phy" rcw = Z.land rcw 3
    /\ rd v "boot" rcw = Z.land (Z.shiftr rcw 5) 7
    /\ rd v "src" rcw = Z.land (Z.shiftr rcw 8) 1
    /\ rd v "pll" rcw = Z.land (Z.shiftr rcw 31) 1
    /\ (forall v' name, In name ["phy"; "boot"; "src"; "pll"] ->
          rd v name rcw = rd v' name rcw).
Proof.
  intros v rcw.
  repeat split; try (destruct v; reflexivity).
  intros v' name Hin. simpl in Hin.
  destruct Hin as [<-|[<-|[<-|[<-|[]]]]]; destruct v, v'; reflexivity.
Qed.

Lemma generic_members_layout_invariant_witness :
  rd sd "boot" 0x000F0140 = rd qspi "boot" 0x000F0140.
Proof.
  destruct (generic_members_layout_invariant sd 0x000F0140)
    as (_ & _ & _ & _ & _ & _ & _ & _ & Hsame).
  apply Hsame. simpl. tauto.
Defined.

(* ================================================================== *)
(** * The wire format *)
(* ================================================================== *)

(** C7.  The word travels little-endian, whatever the host: 0x01020304 is
    sent as 04 03 02 01 and those bytes are read as 0x01020304; byte [i]
    of the wire image of any word holds its bits [8i .. 8i+7], and bits
    [8i .. 8i+7] of the word read are byte [i] received. *)
Theorem wire_is_little_endian :
  forall host : byte_order,
    rcw_wire host 0x01020304 = [0x04; 0x03; 0x02; 0x01]
    /\ rcw_unwire host [0x04; 0x03; 0x02; 0x01] = 0x01020304
    /\ (forall (w : Z) (i : nat) (n : Z),
          (i < 4)%nat -> 0 <= n < 8 ->
          Z.testbit (nth i (rcw_wire host w) 0) n
          = Z.testbit w (8 * Z.of_nat i + n))
    /\ (forall (b0 b1 b2 b3 : Z) (i : nat) (n : Z),
          Forall (fun b => 0 <= b < 256) [b0; b1; b2; b3] ->
          (i < 4)%nat -> 0 <= n < 8 ->
          Z.testbit (rcw_unwire host [b0; b1; b2; b3]) (8 * Z.of_nat i + n)
          = Z.testbit (nth i [b0; b1; b2; b3] 0) n).
Proof.
  intros host. split; [destruct host; reflexivity|].
  split; [destruct host; reflexivity|]. split.
  - intros w i n Hi Hn. rewrite OctetFacts.rcw_wire_octets.
    destruct i as [|[|[|[|i]]]]; try lia; cbn [nth];
      rewrite OctetFacts.octet_spec by lia;
      decide_cmp; cbn [andb]; f_equal; lia.
  - intros b0 b1 b2 b3 i n Hb Hi Hn.
    inversion Hb as [|? ? H0 Hb1]; subst.
    inversion Hb1 as [|? ? H1 Hb2]; subst.
    inversion Hb2 as [|? ? H2 Hb3]; subst.
    inversion Hb3 as [|? ? H3 _]; subst.
    rewrite OctetFacts.rcw_unwire_octets by assumption.
    rewrite OctetFacts.word_of_octets_spec.
    destruct i as [|[|[|[|i]]]]; try lia; cbn [nth];
      decide_cmp; cbn [andb orb]; OctetFacts.clear_out_of_byte;
      f_equal; lia.
Qed.

Lemma wire_is_little_endian_witness :
  Z.testbit (nth 1 (rcw_wire BigEndian 0x01020304) 0) 1
  = Z.testbit 0x01020304 (8 * Z.of_nat 1 + 1)
  /\ Z.testbit (rcw_unwire BigEndian [4; 3; 2; 1]) (8 * Z.of_nat 2 + 1)
     = Z.testbit (nth 2 [4; 3; 2; 1] 0) 1.
Proof.
  destruct (wire_is_little_endian BigEndian) as (_ & _ & Hw & Hr).
  split.
  - apply Hw; lia.
  - apply Hr; [repeat constructor; lia | lia | lia].
Defined.

(* ================================================================== *)
(** * The codec of a view *)
(* ================================================================== *)

(** C6.  For each view, a struct whose members all fit their widths is
    read back unchanged from the four bytes it is written as. *)
Theorem decode_encode :
  forall (host : byte_order) (v : view) (fields : list Z),
    Bitfield.fits (layout v) fields ->
    decode host v (encode host v fields) = fields.
Proof.
  intros host v fields Hfits. unfold decode, encode.
  rewrite OctetFacts.rcw_unwire_wire.
  unfold Bitfield.unpack.
  rewrite PackFacts.unpack_from_mod.
  - apply PackFacts.unpack_pack. exact Hfits.
  - lia.
  - apply PackFacts.layout_widths.
  - rewrite PackFacts.layout_bits. lia.
Qed.

Lemma decode_encode_witness :
  decode LittleEndian sd (encode LittleEndian sd [1; 0; 2; 1; 0; 0; 7; 1; 0; 0])
  = [1; 0; 2; 1; 0; 0; 7; 1; 0; 0].
Proof.
  apply (decode_encode LittleEndian sd [1; 0; 2; 1; 0; 0; 7; 1; 0; 0]).
  repeat constructor; lia.
Defined.

(* ================================================================== *)
(** * The wait period *)
(* ================================================================== *)

(** C4, as the code has it.  The mapping is total; codes 0, 1, 2, 3, 4
    and 7 give 0, 5, 10, 20, 35 and 50 ms; the reserved codes 5 and 6, and
    any other value, give 0, the delay of code 0. *)
Theorem wait_period_to_ms_table :
  wait_period_to_ms 0 = 0 /\ wait_period_to_ms 1 = 5
  /\ wait_period_to_ms 2 = 10 /\ wait_period_to_ms 3 = 20
  /\ wait_period_to_ms 4 = 35 /\ wait_period_to_ms 7 = 50
  /\ wait_period_to_ms 5 = 0 /\ wait_period_to_ms 6 = 0
  /\ (forall p : Z, ~ In p [1; 2; 3; 4; 7] -> wait_period_to_ms p = 0)
  /\ (forall p : Z, In (wait_period_to_ms p) [0; 5; 10; 20; 35; 50]).
Proof.
  repeat split; try reflexivity.
  - intros p Hp. unfold wait_period_to_ms, WAIT_PERIOD_50MS.
    simpl in Hp.
    destruct (Z.eqb_spec p 1); [lia|].
    destruct (Z.eqb_spec p 2); [lia|].
    destruct (Z.eqb_spec p 3); [lia|].
    destruct (Z.eqb_spec p 4); [lia|].
    destruct (Z.eqb_spec p 7); [lia|].
    reflexivity.
  - intros p. unfold wait_period_to_ms, WAIT_PERIOD_50MS.
    destruct (p =? 1); [simpl; tauto|].
    destruct (p =? 2); [simpl; tauto|].
    destruct (p =? 3); [simpl; tauto|].
    destruct (p =? 4); [simpl; tauto|].
    destruct (p =? 7); simpl; tauto.
Qed.

Lemma wait_period_to_ms_table_witness : wait_period_to_ms 6 = 0.
Proof.
  destruct wait_period_to_ms_table as (_ & _ & _ & _ & _ & _ & _ & _ & H & _).
  apply H. simpl. lia.
Defined.

(** C4 as stated fails: no value marks the reserved codes as unknown,
    since 5 and 6 give the very delay that code 0 gives. *)
Lemma wait_period_reserved_not_marked :
  ~ (exists unknown : Z,
       wait_period_to_ms 5 = unknown /\ wait_period_to_ms 6 = unknown
       /\ forall p, In p [0; 1; 2; 3; 4; 7] -> wait_period_to_ms p <> unknown).
Proof.
  intros (unknown & H5 & _ & Hdistinct).
  apply (Hdistinct 0); [simpl; tauto|].
  rewrite <- H5. reflexivity.
Qed.

(* ================================================================== *)
(** * The boot policy *)
(* ================================================================== *)

Module PolicyFacts.
Import Bitfield BitfieldFacts.

Lemma rd_src w : rd rcon "src" w = get 8 1 w.
Proof. reflexivity. Qed.
Lemma rd_boot w : rd rcon "boot" w = get 5 3 w.
Proof. reflexivity. Qed.
Lemma rd_speed w : rd sd "speed" w = get 19 1 w.
Proof. reflexivity. Qed.
Lemma rd_wait w : rd sd "wait" w = get 16 3 w.
Proof. reflexivity. Qed.
Lemma wr_src w x : wr rcon "src" w x = set 8 1 w x.
Proof. reflexivity. Qed.
Lemma wr_boot w x : wr rcon "boot" w x = set 5 3 w x.
Proof. reflexivity. Qed.
Lemma wr_speed w x : wr sd "speed" w x = set 19 1 w x.
Proof. reflexivity. Qed.
Lemma wr_wait w x : wr sd "wait" w x = set 16 3 w x.
Proof. reflexivity. Qed.

Lemma boot_after_src w x : rd rcon "boot" (wr rcon "src" w x) = rd rcon "boot" w.
Proof. rewrite !rd_boot, wr_src. apply get_set_other; lia. Qed.

Lemma speed_after_src w x : rd sd "speed" (wr rcon "src" w x) = rd sd "speed" w.
Proof. rewrite !rd_speed, wr_src. apply get_set_other; lia. Qed.

Lemma wait_after_src w x : rd sd "wait" (wr rcon "src" w x) = rd sd "wait" w.
Proof. rewrite !rd_wait, wr_src. apply get_set_other; lia. Qed.

Lemma wait_after_speed w x : rd sd "wait" (wr sd "speed" w x) = rd sd "wait" w.
Proof. rewrite !rd_wait, wr_speed. apply get_set_other; lia. Qed.

Lemma src_after_src w :
  rd rcon "src" (wr rcon "src" w RCON_SRC_I2C) = RCON_SRC_I2C.
Proof. rewrite rd_src, wr_src. rewrite get_set_same by lia. reflexivity. Qed.

Lemma src_after_speed w x : rd rcon "src" (wr sd "speed" w x) = rd rcon "src" w.
Proof. rewrite !rd_src, wr_speed. apply get_set_other; lia. Qed.

Lemma src_after_wait w x : rd rcon "src" (wr sd "wait" w x) = rd rcon "src" w.
Proof. rewrite !rd_src, wr_wait. apply get_set_other; lia. Qed.

Lemma boot_after_speed w x : rd rcon "boot" (wr sd "speed" w x) = rd rcon "boot" w.
Proof. rewrite !rd_boot, wr_speed. apply get_set_other; lia. Qed.

Lemma boot_after_wait w x : rd rcon "boot" (wr sd "wait" w x) = rd rcon "boot" w.
Proof. rewrite !rd_boot, wr_wait. apply get_set_other; lia. Qed.

Lemma speed_after_wait w x : rd sd "speed" (wr sd "wait" w x) = rd sd "speed" w.
Proof. rewrite !rd_speed, wr_wait. apply get_set_other; lia. Qed.

Lemma speed_after_speed w : rd sd "speed" (wr sd "speed" w 1) = 1.
Proof. rewrite rd_speed, wr_speed. rewrite get_set_same by lia. reflexivity. Qed.

Lemma wait_after_wait w :
  rd sd "wait" (wr sd "wait" w WAIT_PERIOD_50MS) = WAIT_PERIOD_50MS.
Proof. rewrite rd_wait, wr_wait. rewrite get_set_same by lia. reflexivity. Qed.

Lemma speed_is_bit w : rd sd "speed" w = 0 \/ rd sd "speed" w = 1.
Proof.
  rewrite rd_speed. pose proof (get_range 19 1 w) as H.
  change (2 ^ 1) with 2 in H. lia.
Qed.

(** Normal form of a goal about the policy: the tuples are opened, the
    members read through the assignments that do not touch them. *)
Ltac norm :=
  repeat first
    [ progress cbv beta iota zeta
    | progress cbn [negb orb andb fst snd boot_val Z.eqb Pos.eqb]
    | progress rewrite ?boot_after_src, ?speed_after_src, ?wait_after_src,
        ?wait_after_speed, ?src_after_speed, ?src_after_wait,
        ?boot_after_speed, ?boot_after_wait, ?speed_after_wait,
        ?src_after_src, ?speed_after_speed, ?wait_after_wait,
        ?orb_true_r, ?orb_false_r, ?andb_true_r, ?Z.eqb_refl ].

Ltac crunch :=
  repeat (norm;
          match goal with
          | H : _ = _ |- _ => progress rewrite H
          end);
  norm.

(** What the policy leaves when the boot media are switched: nothing
    of the word read, and nothing of the first step. *)
Lemma switch_result changed target w :
  step_boot target w = true ->
  boot_policy changed target w
  = (match target with
     | BOOT_QSPI => 0x00000000
     | BOOT_SD => 0x000F0040
     | BOOT_MMC => 0x00000060
     end, true).
Proof.
  unfold step_boot, boot_policy. intros Hboot.
  destruct (negb (rd rcon "src" w =? RCON_SRC_I2C));
    rewrite ?boot_after_src, Hboot; destruct target; reflexivity.
Qed.

(** The flag [changed] after the three steps: the value it held before
    them, or any of the steps having fired. *)
Lemma changed_flag changed target w :
  snd (boot_policy changed target w)
  = changed || step_src w || step_boot target w || step_sd target w.
Proof.
  destruct (step_boot target w) eqn:Hboot.
  - rewrite switch_result by exact Hboot.
    rewrite orb_true_r. reflexivity.
  - unfold step_boot in Hboot.
    apply negb_false_iff, Z.eqb_eq in Hboot.
    unfold boot_policy, step_src, step_sd, step_boot.
    destruct (rd rcon "src" w =? RCON_SRC_I2C); norm; rewrite ?Hboot;
      destruct target; norm; rewrite ?Hboot; norm; try reflexivity;
      destruct (rd sd "speed" w =? 0); norm;
      destruct (rd sd "wait" w =? WAIT_PERIOD_50MS); norm; reflexivity.
Qed.

Lemma compliant_no_step target w :
  compliant target w = true ->
  step_src w = false /\ step_boot target w = false
  /\ step_sd target w = false.
Proof.
  unfold compliant, step_src, step_sd, step_boot.
  intros H. apply andb_true_iff in H. destruct H as [H Hsd].
  apply andb_true_iff in H. destruct H as [Hsrc Hboot].
  destruct target; rewrite Hsrc, Hboot; repeat split.
  apply andb_true_iff in Hsd. destruct Hsd as [Hspeed Hwait].
  rewrite Hwait. apply Z.eqb_eq in Hspeed. rewrite Hspeed. reflexivity.
Qed.

(** On a compliant word the policy assigns nothing: the word is kept
    and [changed] still holds whatever it held. *)
Lemma compliant_untouched changed target w :
  compliant target w = true ->
  boot_policy changed target w = (w, changed).
Proof.
  intros H. unfold compliant in H.
  apply andb_true_iff in H. destruct H as [H Hsd].
  apply andb_true_iff in H. destruct H as [Hsrc Hboot].
  unfold boot_policy. rewrite Hsrc. norm. rewrite Hboot. norm.
  apply Z.eqb_eq in Hboot. rewrite Hboot.
  destruct target; norm; try reflexivity.
  apply andb_true_iff in Hsd. destruct Hsd as [Hspeed Hwait].
  apply Z.eqb_eq in Hspeed. rewrite ?Hspeed. norm.
  rewrite ?Hwait. norm. reflexivity.
Qed.

(** Without a switch of boot media the policy does reach a compliant
    word. *)
Lemma no_switch_compliant changed target w :
  step_boot target w = false ->
  compliant target (fst (boot_policy changed target w)) = true.
Proof.
  unfold step_boot. intros Hboot.
  apply negb_false_iff, Z.eqb_eq in Hboot.
  unfold boot_policy, compliant.
  destruct target; cbn [boot_val] in Hboot;
    destruct (rd rcon "src" w =? RCON_SRC_I2C) eqn:Hsrc; crunch;
    try reflexivity;
    destruct (speed_is_bit w) as [Hs|Hs];
    destruct (rd sd "wait" w =? WAIT_PERIOD_50MS) eqn:Hwait; crunch;
    reflexivity.
Qed.

End PolicyFacts.

(** C2, as the code has it.  When the boot field differs from the target
    the word is zeroed and [boot] set to the target (and, for SD, speed
    and wait period set); nothing else survives, so [src] reads 0
    (parallel), not 1 (I2C), although the first step had set it. *)
Theorem media_switch_clears_src :
  forall (changed : bool) (target : boot_t) (rcw : Z),
    step_boot target rcw = true ->
    boot_policy changed target rcw
    = (if step_sd target rcw
       then wr sd "wait" (wr sd "speed" (wr rcon "boot" 0 (boot_val target)) 1)
               WAIT_PERIOD_50MS
       else wr rcon "boot" 0 (boot_val target),
       true)
    /\ fst (boot_policy changed target rcw)
       = match target with
         | BOOT_QSPI => 0x00000000
         | BOOT_SD => 0x000F0040
         | BOOT_MMC => 0x00000060
         end
    /\ rd rcon "boot" (fst (boot_policy changed target rcw)) = boot_val target
    /\ rd rcon "src" (fst (boot_policy changed target rcw)) = 0.
Proof.
  intros changed target rcw Hboot.
  rewrite (PolicyFacts.switch_result changed target rcw Hboot).
  destruct target; cbn [step_sd]; rewrite ?Hboot; repeat split; reflexivity.
Qed.

Lemma media_switch_clears_src_witness :
  fst (boot_policy false BOOT_SD 0x00000100) = 0x000F0040
  /\ rd rcon "src" (fst (boot_policy false BOOT_SD 0x00000100)) = 0.
Proof.
  destruct (media_switch_clears_src false BOOT_SD 0x00000100 eq_refl)
    as (_ & Hword & _ & Hsrc).
  split; [exact Hword | exact Hsrc].
Defined.

(** C1, as the code has it.  [changed] has no initialiser, so on a
    compliant word, where no step assigns it, it holds whatever it held:
    with a non-zero value the compliant word 0x000F0140 is written again.
    And after a switch of boot media the policy's own result is not
    compliant: applied to the empty word for SD it gives 0x000F0040, and
    applied to that it changes the word once more, so that a second run
    of the tool on the EEPROM the first run left writes again. *)
Theorem changed_flag_on_compliant_and_second_pass :
  (compliant BOOT_SD 0x000F0140 = true
   /\ boot_policy true BOOT_SD 0x000F0140 = (0x000F0140, true)
   /\ existsb is_write
        (events (Sim.run true [] (Sim.board [0x40; 0x01; 0x0F; 0x00] false)))
      = true)
  /\ (boot_policy false BOOT_SD 0x00000000 = (0x000F0040, true)
      /\ compliant BOOT_SD 0x000F0040 = false
      /\ boot_policy false BOOT_SD 0x000F0040 = (0x000F0140, true))
  /\ (let first := Sim.run false [] (Sim.board [0x00; 0x00; 0x00; 0x00] false) in
      let second := Sim.run false [] (final first) in
      Sim.eeprom (final first) = [0x40; 0x00; 0x0F; 0x00]
      /\ existsb is_write (events second) = true
      /\ Sim.eeprom (final second) = [0x40; 0x01; 0x0F; 0x00]).
Proof. repeat split; vm_compute; reflexivity. Qed.

(* ================================================================== *)
(** * The EEPROM layer *)
(* ================================================================== *)

(** C8, as the code has it.  [at24c01_write] does not check the length;
    when the caller keeps it within [MAX_BUFSZ] (and within the payload),
    the buffer [offset :: payload] is assembled inside [wbuf], whose
    [MAX_BUFSZ+1] elements it never exceeds, and is sent in one write-only
    transfer whose status is returned as it is.  [s32g_rcw_write], the
    only caller, passes 4 bytes. *)
Theorem at24c01_write_within_bounds :
  forall (St : Type) (lib : libmcp2221 St) (address offset : Z)
         (w_buf : list Z) (w_len : nat) (s : St),
    (w_len <= List.length w_buf)%nat -> (w_len <= MAX_BUFSZ)%nat ->
    let sent := offset :: firstn w_len w_buf in
    (List.length sent <= MAX_BUFSZ + 1)%nat
    /\ at24c01_write lib address offset w_buf w_len s
       = (Next (fst (fst (mcp2221_i2cWriteRead lib address sent 0 s))),
          snd (mcp2221_i2cWriteRead lib address sent 0 s),
          [Call (mcp_i2cWriteRead address sent 0)]).
Proof.
  intros St lib address offset w_buf w_len s Hsrc Hmax sent. split.
  - unfold sent. cbn [List.length]. rewrite length_firstn. lia.
  - unfold at24c01_write, memcpy.
    replace (List.length (offset :: tl (repeat 0 (MAX_BUFSZ + 1))))
      with (MAX_BUFSZ + 1)%nat by reflexivity.
    rewrite (proj2 (Nat.leb_le w_len (List.length w_buf)) Hsrc).
    rewrite (proj2 (Nat.leb_le (1 + w_len) (MAX_BUFSZ + 1))) by lia.
    cbn [andb].
    assert (Hsent :
      firstn (w_len + 1)
        (firstn 1 (offset :: tl (repeat 0 (MAX_BUFSZ + 1))) ++
         firstn w_len w_buf ++
         skipn (1 + w_len) (offset :: tl (repeat 0 (MAX_BUFSZ + 1))))
      = sent).
    { cbn [firstn app]. replace (w_len + 1)%nat with (S w_len) by lia.
      cbn [firstn]. unfold sent. f_equal.
      rewrite firstn_app, firstn_firstn, Nat.min_id, length_firstn.
      replace (w_len - Nat.min w_len (List.length w_buf))%nat with 0%nat by lia.
      cbn [firstn]. apply app_nil_r. }
    rewrite Hsent.
    unfold bind, invoke, ret.
    destruct (mcp2221_i2cWriteRead lib address sent 0 s) as [[res bytes] s'].
    reflexivity.
Qed.

Lemma at24c01_write_within_bounds_witness :
  at24c01_write Sim.lib 0x50 0 [0x40; 0x01; 0x0F; 0x00] 4
    (Sim.board [0; 0; 0; 0] false)
  = (Next 0, Sim.board [0x40; 0x01; 0x0F; 0x00] false,
     [Call (mcp_i2cWriteRead 0x50 [0; 0x40; 0x01; 0x0F; 0x00] 0)]).
Proof.
  apply (at24c01_write_within_bounds Sim.state Sim.lib 0x50 0
           [0x40; 0x01; 0x0F; 0x00] 4 (Sim.board [0; 0; 0; 0] false)).
  - simpl. lia.
  - unfold MAX_BUFSZ. lia.
Defined.

(** C8 as stated fails: a payload of [MAX_BUFSZ+1] bytes is not turned
    down with an error status; it is copied past the end of [wbuf]. *)
Lemma at24c01_write_too_long_not_rejected :
  at24c01_write Sim.lib 0x50 0 (repeat 0xAA 61) 61 (Sim.board [0; 0; 0; 0] false)
  = (OutOfBounds, Sim.board [0; 0; 0; 0] false, [])
  /\ ~ (forall (w_buf : list Z) (s : Sim.state),
          (MAX_BUFSZ < List.length w_buf)%nat ->
          exists rv : Z,
            rv <> MCP2221_SUCCESS Sim.lib
            /\ at24c01_write Sim.lib 0x50 0 w_buf (List.length w_buf) s
               = (Next rv, s, [])).
Proof.
  split; [reflexivity|].
  intros Hchecked.
  destruct (Hchecked (repeat 0xAA 61) (Sim.board [0; 0; 0; 0] false))
    as (rv & _ & Hrv).
  - unfold MAX_BUFSZ. simpl. lia.
  - vm_compute in Hrv. discriminate Hrv.
Qed.

(* ================================================================== *)
(** * Verification after the write *)
(* ================================================================== *)

Lemma print_rcw_quiet (St : Type) (rcw : Z) (s : St) :
  fst (print_rcw rcw s) = (Next tt, s)
  /\ forallb (fun e => negb (is_error_message e) && negb (is_hardware_access e))
             (events (print_rcw rcw s)) = true.
Proof.
  unfold print_rcw, events.
  destruct (rd rcon "boot" rcw =? boot_val BOOT_SD); split; reflexivity.
Qed.

(** C3 as stated fails: on an EEPROM that acknowledges the write and
    keeps its content, the tool writes 40 01 0F 00, reads 40 00 00 00
    back, reports no error and returns 0. *)
Lemma mismatch_after_write_not_reported :
  let run := Sim.run false [] (Sim.board [0x40; 0x00; 0x00; 0x00] true) in
  In (Call (mcp_i2cWriteRead 0x50 [0; 0x40; 0x01; 0x0F; 0x00] 0)) (events run)
  /\ Sim.eeprom (final run) = [0x40; 0x00; 0x00; 0x00]
  /\ firstn 3 (skipn 18 (events run))
     = [Call (mcp_i2cWriteRead 0x50 [0; 0x40; 0x01; 0x0F; 0x00] 0);
        Call (mcp_i2cWriteRead 0x50 [0] 4);
        Printf "RCW: 0x%08x\n" [ArgX 0x00000040]]
  /\ existsb is_error_message (events run) = false
  /\ status run = Some 0.
Proof.
  vm_compute. repeat split; auto 30.
Qed.

(* ================================================================== *)
(** * The command line *)
(* ================================================================== *)

Section OptionLoop.

Context {St : Type}.
Variable sscanf_x : string -> option Z.

Lemma with_output_nil {A} (r : result A * St * list event) :
  with_output [] r = r.
Proof. destruct r as [[res s] t]. reflexivity. Qed.

Lemma with_output_app {A} t u (r : result A * St * list event) :
  with_output t (with_output u r) = with_output (t ++ u) r.
Proof. unfold with_output. cbn [fst snd]. rewrite app_assoc. reflexivity. Qed.

(** One iteration of the loop on anything but a help request: the
    diagnostic of a rejected option, then the rest of the loop. *)
Lemma parse_args_cons a rest o (s : St) :
  requests_help [a] = false ->
  parse_args sscanf_x (a :: rest) o s
  = with_output (diagnostic a)
      (parse_args sscanf_x rest (option_step sscanf_x o a) s).
Proof.
  destruct a as [option_index optarg | c];
    cbn [requests_help parse_args option_step is_addr_option is_boot_option
         diagnostic];
    rewrite orb_false_r; intros Hhelp; rewrite Hhelp; cbn [negb andb].
  - rewrite with_output_nil.
    destruct (option_index =? IDX_ADDR); [reflexivity|].
    destruct (option_index =? IDX_BOOT); [|reflexivity].
    unfold boot_token.
    destruct (String.eqb optarg "qspi"); [reflexivity|].
    destruct (String.eqb optarg "sd"); [reflexivity|].
    destruct (String.eqb optarg "mmc"); reflexivity.
  - destruct (Ascii.eqb c "?").
    + unfold bind, emit, with_output.
      destruct (parse_args sscanf_x rest o s) as [[res s'] t]. reflexivity.
    + rewrite with_output_nil. reflexivity.
Qed.

Lemma requests_help_cons a rest :
  requests_help (a :: rest) = requests_help [a] || requests_help rest.
Proof.
  destruct a; cbn [requests_help]; rewrite orb_false_r; reflexivity.
Qed.

Lemma getopt_messages_cons a rest :
  requests_help [a] = false ->
  getopt_messages (a :: rest) = diagnostic a ++ getopt_messages rest.
Proof. intros Ha. cbn [getopt_messages]. rewrite Ha. reflexivity. Qed.

(** Without a help request the loop prints the diagnostics of
    [getopt_long] and nothing else, and leaves the hardware alone. *)
Lemma parse_args_no_help : forall args o (s : St),
  requests_help args = false ->
  parse_args sscanf_x args o s
  = (Next (options_after sscanf_x args o), s, getopt_messages args).
Proof.
  induction args as [|a rest IH]; intros o s Hhelp; [reflexivity|].
  rewrite requests_help_cons in Hhelp.
  apply orb_false_iff in Hhelp. destruct Hhelp as [Ha Hrest].
  rewrite parse_args_cons by exact Ha.
  rewrite IH by exact Hrest.
  rewrite getopt_messages_cons by exact Ha. reflexivity.
Qed.

(** An option that changes nothing where it stands, and that
    [getopt_long] accepts, can be left out. *)
Lemma parse_args_insert : forall args1 a args2 o (s : St),
  requests_help [a] = false ->
  diagnostic a = [] ->
  (requests_help args1 = false ->
   option_step sscanf_x (options_after sscanf_x args1 o) a
   = options_after sscanf_x args1 o) ->
  parse_args sscanf_x (args1 ++ a :: args2) o s
  = parse_args sscanf_x (args1 ++ args2) o s.
Proof.
  induction args1 as [|b rest IH]; intros a args2 o s Ha Hquiet Hnoop.
  - cbn [app]. rewrite parse_args_cons by exact Ha.
    specialize (Hnoop eq_refl).
    unfold options_after in Hnoop. cbn [fold_left] in Hnoop.
    rewrite Hnoop, Hquiet. apply with_output_nil.
  - cbn [app]. destruct (requests_help [b]) eqn:Hb.
    + destruct b as [option_index optarg | c];
        cbn [requests_help] in Hb; rewrite orb_false_r in Hb;
        cbn [parse_args]; rewrite Hb; reflexivity.
    + rewrite !parse_args_cons by exact Hb. f_equal.
      apply IH; [exact Ha | exact Hquiet |].
      intros Hrest. apply Hnoop.
      rewrite requests_help_cons, Hb, Hrest. reflexivity.
Qed.

Lemma boot_media_kept : forall args o,
  forallb (fun a => negb (is_boot_option a)) args = true ->
  boot_media (options_after sscanf_x args o) = boot_media o.
Proof.
  induction args as [|a rest IH]; intros o Hno; [reflexivity|].
  cbn [forallb] in Hno. apply andb_true_iff in Hno.
  destruct Hno as [Ha Hrest]. apply negb_true_iff in Ha.
  unfold options_after. cbn [fold_left].
  fold (options_after sscanf_x rest (option_step sscanf_x o a)).
  rewrite IH by exact Hrest.
  destruct a as [option_index optarg | c]; [|reflexivity].
  unfold option_step. rewrite Ha.
  destruct (is_addr_option (Long option_index optarg)); [|reflexivity].
  destruct (sscanf_x optarg); reflexivity.
Qed.

End OptionLoop.

Section MainFacts.

Context {St : Type}.
Variable lib : libmcp2221 St.
Variable host : byte_order.
Variable sscanf_x : string -> option Z.
Variable scanf_d : option Z.
Variable changed_uninit : bool.

(** [main] depends on its arguments through the option loop only. *)
Lemma main_ext args args' (s : St) :
  parse_args sscanf_x args default_options s
  = parse_args sscanf_x args' default_options s ->
  main lib host sscanf_x scanf_d changed_uninit args s
  = main lib host sscanf_x scanf_d changed_uninit args' s.
Proof.
  intros H. unfold main, bind, puts, emit.
  fold default_options. rewrite H. reflexivity.
Qed.

(** [main] is its option loop, then the rest with the options left. *)
Lemma main_no_help args (s : St) :
  requests_help args = false ->
  main lib host sscanf_x scanf_d changed_uninit args s
  = with_output
      (Puts "rcwtool: read/write I2C-EEPROM" :: getopt_messages args)
      (after_options lib host scanf_d changed_uninit
         (options_after sscanf_x args default_options) s).
Proof.
  intros Hhelp. unfold main. fold default_options.
  cbv beta iota zeta delta [bind puts emit].
  rewrite parse_args_no_help by exact Hhelp.
  unfold after_options, with_output.
  cbv beta iota zeta delta [bind].
  destruct ((eeprom_address (options_after sscanf_x args default_options) <? 0)
            || (eeprom_address (options_after sscanf_x args default_options)
                >? 127)).
  - reflexivity.
  - destruct (open_device lib scanf_d s) as [[[u|code|] s1] t1];
      [|reflexivity|reflexivity].
    destruct (prepare_bus lib s1) as [[[u2|code|] s2] t2];
      [|reflexivity|reflexivity].
    destruct (read_modify_write lib host changed_uninit
                (options_after sscanf_x args default_options) s2)
      as [[res s3] t3].
    reflexivity.
Qed.

End MainFacts.

(** C5, as the code has it.  When no help is requested and the address
    the options leave lies outside 0..0x7f, the run ends with status -1
    and the message about the illegal address, before any call into the
    library.  An address argument that does not convert and a boot token
    other than qspi, sd and mmc are not detected: the run is the one of
    the command line without them. *)
Theorem argument_errors :
  forall (St : Type) (lib : libmcp2221 St) (host : byte_order)
         (sscanf_x : string -> option Z) (scanf_d : option Z)
         (changed_uninit : bool),
    (forall (args : list getopt_result) (s : St),
        requests_help args = false ->
        let address :=
          eeprom_address (options_after sscanf_x args default_options) in
        address < 0 \/ 0x7f < address ->
        main lib host sscanf_x scanf_d changed_uninit args s
        = (Return (-1), s,
           Puts "rcwtool: read/write I2C-EEPROM"
           :: getopt_messages args
           ++ [Eprintf "Error: illegal address: 0x%02x!\n" [ArgX address]]))
    /\ (forall (args1 args2 : list getopt_result) (optarg : string) (s : St),
          sscanf_x optarg = None ->
          main lib host sscanf_x scanf_d changed_uninit
               (args1 ++ Long IDX_ADDR optarg :: args2) s
          = main lib host sscanf_x scanf_d changed_uninit (args1 ++ args2) s)
    /\ (forall (args1 args2 : list getopt_result) (optarg : string) (s : St),
          optarg <> "qspi" -> optarg <> "sd" -> optarg <> "mmc" ->
          main lib host sscanf_x scanf_d changed_uninit
               (args1 ++ Long IDX_BOOT optarg :: args2) s
          = main lib host sscanf_x scanf_d changed_uninit (args1 ++ args2) s).
Proof.
  intros St lib host sscanf_x scanf_d changed_uninit. repeat split.
  - intros args s Hhelp address Haddr.
    rewrite main_no_help by exact Hhelp.
    unfold after_options. fold address.
    replace ((address <? 0) || (address >? 127)) with true.
    + reflexivity.
    + symmetry. apply orb_true_iff. destruct Haddr as [H|H].
      * left. apply Z.ltb_lt. exact H.
      * right. rewrite Z.gtb_ltb. apply Z.ltb_lt. exact H.
  - intros args1 args2 optarg s Hscan. apply main_ext.
    apply parse_args_insert; [reflexivity | reflexivity |].
    intros _. cbn. rewrite Hscan. reflexivity.
  - intros args1 args2 optarg s Hq Hs Hm. apply main_ext.
    apply parse_args_insert; [reflexivity | reflexivity |].
    intros _. cbn [option_step is_addr_option is_boot_option IDX_BOOT IDX_HELP
                   IDX_ADDR Z.eqb Pos.eqb negb andb].
    unfold boot_token.
    apply String.eqb_neq in Hq, Hs, Hm. rewrite Hq, Hs, Hm. reflexivity.
Qed.

Lemma argument_errors_witness :
  Sim.run false [Long IDX_ADDR "80"] (Sim.board [0x40; 0; 0; 0] false)
  = (Return (-1), Sim.board [0x40; 0; 0; 0] false,
     [Puts "rcwtool: read/write I2C-EEPROM";
      Eprintf "Error: illegal address: 0x%02x!\n" [ArgX 0x80]])
  /\ Sim.run false [Long IDX_ADDR "zz"; Long IDX_BOOT "mmc"]
       (Sim.board [0x40; 0; 0; 0] false)
     = Sim.run false [Long IDX_BOOT "mmc"] (Sim.board [0x40; 0; 0; 0] false)
  /\ Sim.run false [Long IDX_BOOT "usb"] (Sim.board [0x40; 0; 0; 0] false)
     = Sim.run false [] (Sim.board [0x40; 0; 0; 0] false).
Proof.
  destruct (argument_errors Sim.state Sim.lib LittleEndian Sim.sscanf_x
              None false) as (Hrange & Haddr & Hboot).
  split; [|split].
  - apply (Hrange [Long IDX_ADDR "80"]); [reflexivity | right; vm_compute; reflexivity].
  - apply (Haddr [] [Long IDX_BOOT "mmc"] "zz"). reflexivity.
  - apply (Hboot [] [] "usb"); discriminate.
Defined.

(** C5 as stated fails: with an address that does not convert and with
    an unknown boot medium the run reaches the hardware, reports no error
    and returns 0. *)
Lemma malformed_arguments_not_fatal :
  let run := Sim.run false [Long IDX_ADDR "zz"; Long IDX_BOOT "usb"]
               (Sim.board [0x40; 0x01; 0x0F; 0x00] false) in
  Sim.sscanf_x "zz" = None
  /\ existsb is_hardware_access (events run) = true
  /\ existsb is_error_message (events run) = false
  /\ status run = Some 0.
Proof. vm_compute. repeat split. Qed.

(* ================================================================== *)
(** * More on the views *)
(* ================================================================== *)

Module ViewFacts.
Import Bitfield BitfieldFacts.

(** Where [locate_from] finds a member, and that two members found
    under different names do not share a bit. *)
Lemma locate_from_bounds : forall l off name o width,
  Forall (fun d => 0 <= snd d) l ->
  locate_from off l name = Some (o, width) ->
  off <= o /\ 0 <= width /\ o + width <= off + bits l.
Proof.
  induction l as [|[n wd] l IH]; intros off name o width Hl Hloc;
    [discriminate|].
  inversion Hl as [|? ? Hwd Hl']; subst. simpl in Hwd.
  assert (0 <= bits l).
  { clear - Hl'. induction Hl' as [|d l Hd _ IHl]; simpl; lia. }
  unfold bits. cbn [fold_right snd]. fold (bits l).
  cbn [locate_from] in Hloc. destruct (String.eqb n name).
  - injection Hloc as <- <-. lia.
  - apply IH in Hloc; [lia | exact Hl'].
Qed.

Lemma locate_from_disjoint : forall l off n1 n2 o1 w1 o2 w2,
  Forall (fun d => 0 <= snd d) l ->
  n1 <> n2 ->
  locate_from off l n1 = Some (o1, w1) ->
  locate_from off l n2 = Some (o2, w2) ->
  o1 + w1 <= o2 \/ o2 + w2 <= o1.
Proof.
  induction l as [|[n wd] l IH]; intros off n1 n2 o1 w1 o2 w2 Hl Hne H1 H2;
    [discriminate|].
  inversion Hl as [|? ? Hwd Hl']; subst. simpl in Hwd.
  cbn [locate_from] in H1, H2.
  destruct (String.eqb_spec n n1) as [E1|E1];
    destruct (String.eqb_spec n n2) as [E2|E2].
  - congruence.
  - injection H1 as <- <-.
    apply locate_from_bounds in H2; [lia | exact Hl'].
  - injection H2 as <- <-.
    apply locate_from_bounds in H1; [lia | exact Hl'].
  - exact (IH _ _ _ _ _ _ _ Hl' Hne H1 H2).
Qed.

(** The bits of a struct packed from the members read in a word are the
    bits of the word the struct spans. *)
Lemma pack_unpack_from_spec : forall l off w n,
  0 <= off -> Forall (fun d => 0 <= snd d) l -> 0 <= n ->
  Z.testbit (pack_from off l (unpack_from off l w)) n
  = (off <=? n) && (n <? off + bits l) && Z.testbit w n.
Proof.
  induction l as [|[name width] l IH]; intros off w n Hoff Hl Hn.
  - cbn [pack_from unpack_from]. unfold bits. cbn [fold_right].
    rewrite Z.testbit_0_l.
    destruct (Z.leb_spec off n); decide_cmp; reflexivity.
  - inversion Hl as [|? ? Hw Hl']; subst. simpl in Hw.
    assert (0 <= bits l).
    { clear - Hl'. induction Hl' as [|d l Hd _ IHl]; simpl; lia. }
    cbn [pack_from unpack_from].
    unfold bits. cbn [fold_right snd]. fold (bits l).
    rewrite Z.lor_spec, testbit_shiftl_any, Z.land_spec, get_spec,
      testbit_ones_any, IH by lia || assumption.
    assert (Hcase : n < off \/ off <= n < off + width
                    \/ off + width <= n < off + width + bits l
                    \/ off + width + bits l <= n) by lia.
    destruct Hcase as [Hc|[Hc|[Hc|Hc]]]; decide_cmp; cbn [andb orb];
      rewrite ?orb_false_r, ?andb_true_r; try reflexivity.
    f_equal. lia.
Qed.

End ViewFacts.

(** X1.  Within one view the members are independent: an assignment to
    one member is read back through it, cut to the member's width, and
    leaves every other member of that view as it was. *)
Theorem members_of_a_view_independent :
  forall (v : view) (name other : string) (rcw x : Z),
    (forall off width,
        Bitfield.locate (layout v) name = Some (off, width) ->
        rd v name (wr v name rcw x) = x mod 2 ^ width)
    /\ (other <> name -> rd v other (wr v name rcw x) = rd v other rcw).
Proof.
  intros v name other rcw x.
  pose proof (PackFacts.layout_widths v) as Hl. split.
  - intros off width Hloc.
    destruct (ViewFacts.locate_from_bounds _ _ _ _ _ Hl Hloc) as (Ho & Hw & _).
    unfold rd, wr. rewrite Hloc.
    apply BitfieldFacts.get_set_same; assumption.
  - intros Hne. unfold rd, wr.
    destruct (Bitfield.locate (layout v) name) as [[o1 w1]|] eqn:H1;
      [|reflexivity].
    destruct (Bitfield.locate (layout v) other) as [[o2 w2]|] eqn:H2;
      [|reflexivity].
    destruct (ViewFacts.locate_from_bounds _ _ _ _ _ Hl H1) as (? & ? & _).
    destruct (ViewFacts.locate_from_bounds _ _ _ _ _ Hl H2) as (? & ? & _).
    apply BitfieldFacts.get_set_other; try assumption.
    apply not_eq_sym in Hne.
    destruct (ViewFacts.locate_from_disjoint _ _ _ _ _ _ _ _ Hl Hne H1 H2); lia.
Qed.

Lemma members_of_a_view_independent_witness :
  rd sd "wait" (wr sd "wait" 0x00000140 15) = 15 mod 2 ^ 3
  /\ rd sd "speed" (wr sd "wait" 0x00000140 15) = rd sd "speed" 0x00000140.
Proof.
  destruct (members_of_a_view_independent sd "wait" "speed" 0x00000140 15)
    as [Hsame Hother].
  split.
  - apply (Hsame 16 3). reflexivity.
  - apply Hother. discriminate.
Defined.

(** X2.  Each view covers the word: the members read through a view,
    packed again, give the 32 bits of the word, whatever the view. *)
Theorem view_covers_word :
  forall (v : view) (rcw : Z),
    Bitfield.pack (layout v) (Bitfield.unpack (layout v) rcw) = rcw mod 2 ^ 32
    /\ List.length (Bitfield.unpack (layout v) rcw) = List.length (layout v).
Proof.
  intros v rcw. split.
  - apply Z.bits_inj'. intros n Hn.
    unfold Bitfield.pack, Bitfield.unpack.
    rewrite ViewFacts.pack_unpack_from_spec
      by (lia || apply PackFacts.layout_widths).
    rewrite PackFacts.layout_bits.
    destruct (Z.ltb_spec n 32); decide_cmp; cbn [andb].
    + rewrite Z.mod_pow2_bits_low by lia. reflexivity.
    + rewrite Z.mod_pow2_bits_high by lia. reflexivity.
  - destruct v; reflexivity.
Qed.

(** X3.  The views overlap as the declarations place them: the SD speed
    bit is the lowest bit of the MMC mode, the wait period of SD and MMC
    is the QSPI power-on delay, the QSPI mode lies in bits the generic
    view reserves, and setting the SD speed makes the MMC mode odd. *)
Theorem views_overlap :
  forall rcw : Z,
    rd sd "speed" rcw = Z.land (rd mmc "mode" rcw) 1
    /\ rd sd "wait" rcw = rd mmc "wait" rcw
    /\ rd sd "wait" rcw = rd qspi "por_delay" rcw
    /\ rd qspi "mode" rcw = rd rcon "res0" rcw
    /\ Z.land (rd mmc "mode" (wr sd "speed" rcw 1)) 1 = 1.
Proof.
  intros rcw. repeat split; try reflexivity.
  - change (rd sd "speed" rcw) with (Bitfield.get 19 1 rcw).
    change (Z.land (rd mmc "mode" rcw) 1)
      with (Z.land (Bitfield.get 19 4 rcw) (Z.ones 1)).
    apply Z.bits_inj'. intros n Hn.
    rewrite (BitfieldFacts.get_spec 19 1) by lia.
    rewrite Z.land_spec, (BitfieldFacts.get_spec 19 4), testbit_ones_any by lia.
    destruct (Z.ltb_spec n 1); decide_cmp; cbn [andb];
      rewrite ?andb_false_r, ?andb_true_r; reflexivity.
  - change (Z.land (rd mmc "mode" (wr sd "speed" rcw 1)) 1)
      with (Z.land (Bitfield.get 19 4 (Bitfield.set 19 1 rcw 1)) (Z.ones 1)).
    apply Z.bits_inj'. intros n Hn.
    rewrite Z.land_spec, (BitfieldFacts.get_spec 19 4),
      BitfieldFacts.set_spec, testbit_ones_any by lia.
    destruct (Z.ltb_spec n 1); decide_cmp; cbn [andb].
    + replace n with 0 by lia. reflexivity.
    + rewrite andb_false_r. symmetry. apply (testbit_small 1 1); lia.
Qed.

(* ================================================================== *)
(** * More on the boot policy *)
(* ================================================================== *)

Module PolicyMore.
Import Bitfield BitfieldFacts PolicyFacts.

(** Assigning all ones to a member sets its bits and only them. *)
Lemma set_ones off width w :
  0 <= off -> 0 <= width ->
  set off width w (Z.ones width) = Z.lor w (Z.shiftl (Z.ones width) off).
Proof.
  intros Ho Hw. apply Z.bits_inj'. intros n Hn.
  rewrite set_spec, Z.lor_spec, testbit_shiftl_any, !testbit_ones_any by lia.
  destruct (Z.leb_spec off n); cbn [andb].
  - destruct (Z.ltb_spec n (off + width)); decide_cmp; cbn [andb].
    + rewrite orb_true_r. reflexivity.
    + rewrite orb_false_r. reflexivity.
  - rewrite orb_false_r. reflexivity.
Qed.

Lemma keep_ones off width w :
  0 <= off -> 0 <= width ->
  get off width w = Z.ones width ->
  Z.lor w (Z.shiftl (Z.ones width) off) = w.
Proof.
  intros Ho Hw Hget. apply Z.bits_inj'. intros n Hn.
  rewrite Z.lor_spec, testbit_shiftl_any, testbit_ones_any by lia.
  destruct (Z.leb_spec off n); cbn [andb]; [|apply orb_false_r].
  destruct (Z.ltb_spec (n - off) width); decide_cmp; cbn [andb];
    [|apply orb_false_r].
  assert (Hbit : Z.testbit (get off width w) (n - off) = true).
  { rewrite Hget, testbit_ones_any by lia. decide_cmp. reflexivity. }
  rewrite get_spec in Hbit by lia.
  replace (n - off + off) with n in Hbit by lia.
  apply andb_true_iff in Hbit. destruct Hbit as [_ ->]. reflexivity.
Qed.

(** The three steps, each as the bits it sets. *)
Lemma src_step w :
  (if negb (rd rcon "src" w =? RCON_SRC_I2C)
   then wr rcon "src" w RCON_SRC_I2C else w)
  = Z.lor w 0x100.
Proof.
  rewrite rd_src, wr_src.
  destruct (Z.eqb_spec (get 8 1 w) RCON_SRC_I2C) as [E|E]; cbn [negb].
  - symmetry. apply (keep_ones 8 1 w); [lia | lia | exact E].
  - apply (set_ones 8 1 w); lia.
Qed.

Lemma speed_step w :
  (if rd sd "speed" w =? 0 then wr sd "speed" w 1 else w)
  = Z.lor w 0x80000.
Proof.
  destruct (speed_is_bit w) as [E|E]; rewrite E; cbn [Z.eqb Pos.eqb].
  - rewrite wr_speed. apply (set_ones 19 1 w); lia.
  - symmetry. rewrite rd_speed in E. apply (keep_ones 19 1 w); [lia | lia | exact E].
Qed.

Lemma wait_step w :
  (if negb (rd sd "wait" w =? WAIT_PERIOD_50MS)
   then wr sd "wait" w WAIT_PERIOD_50MS else w)
  = Z.lor w 0x70000.
Proof.
  rewrite rd_wait, wr_wait.
  destruct (Z.eqb_spec (get 16 3 w) WAIT_PERIOD_50MS) as [E|E]; cbn [negb].
  - symmetry. apply (keep_ones 16 3 w); [lia | lia | exact E].
  - apply (set_ones 16 3 w); lia.
Qed.

(** Without a switch the word of the policy is the three steps in a row. *)
Lemma no_switch_steps changed target w :
  step_boot target w = false ->
  fst (boot_policy changed target w)
  = let w1 := if negb (rd rcon "src" w =? RCON_SRC_I2C)
              then wr rcon "src" w RCON_SRC_I2C else w in
    match target with
    | BOOT_SD =>
        let w2 := if rd sd "speed" w1 =? 0 then wr sd "speed" w1 1 else w1 in
        if negb (rd sd "wait" w2 =? WAIT_PERIOD_50MS)
        then wr sd "wait" w2 WAIT_PERIOD_50MS else w2
    | _ => w1
    end.
Proof.
  unfold step_boot. intros Hboot.
  apply negb_false_iff, Z.eqb_eq in Hboot.
  unfold boot_policy.
  destruct target; cbn [boot_val] in Hboot;
    destruct (rd rcon "src" w =? RCON_SRC_I2C) eqn:Hsrc; crunch;
    try reflexivity;
    destruct (rd sd "speed" w =? 0) eqn:Hspeed; crunch;
    destruct (rd sd "wait" w =? WAIT_PERIOD_50MS) eqn:Hwait; crunch;
    reflexivity.
Qed.

Lemma steps_not_compliant target w :
  step_src w || step_boot target w || step_sd target w
  = negb (compliant target w).
Proof.
  unfold step_src, step_sd, step_boot, compliant.
  destruct (rd rcon "src" w =? RCON_SRC_I2C); cbn [negb orb andb];
    [|reflexivity];
    destruct target; cbn [boot_val];
    match goal with
    | |- context [rd rcon "boot" w =? ?k] => destruct (rd rcon "boot" w =? k)
    end; cbn [negb orb andb]; try reflexivity.
  destruct (speed_is_bit w) as [E|E]; rewrite E; cbn [Z.eqb Pos.eqb orb andb];
    [reflexivity|].
  destruct (rd sd "wait" w =? WAIT_PERIOD_50MS); reflexivity.
Qed.

(** The fields the policy decides, on any word. *)
Lemma result_fields changed target w :
  rd rcon "boot" (fst (boot_policy changed target w)) = boot_val target
  /\ rd rcon "src" (fst (boot_policy changed target w))
     = (if step_boot target w then 0 else RCON_SRC_I2C)
  /\ (target = BOOT_SD ->
      rd sd "speed" (fst (boot_policy changed target w)) = 1
      /\ rd sd "wait" (fst (boot_policy changed target w)) = WAIT_PERIOD_50MS).
Proof.
  destruct (step_boot target w) eqn:Hboot.
  - rewrite (switch_result changed target w Hboot).
    destruct target; repeat split; try discriminate; reflexivity.
  - pose proof (no_switch_compliant changed target w Hboot) as Hc.
    unfold compliant in Hc.
    apply andb_true_iff in Hc. destruct Hc as [Hc Hsd].
    apply andb_true_iff in Hc. destruct Hc as [Hsrc Hb].
    apply Z.eqb_eq in Hsrc, Hb.
    split; [exact Hb|]. split; [exact Hsrc|].
    intros ->. apply andb_true_iff in Hsd. destruct Hsd as [H1 H2].
    apply Z.eqb_eq in H1, H2. split; assumption.
Qed.

End PolicyMore.

(** X4.  Whatever word is read, the policy leaves [boot] equal to the
    target and, for target SD, high speed and the 50 ms wait period;
    [src] is I2C exactly when the boot media were not switched. *)
Theorem policy_result_fields :
  forall (changed : bool) (target : boot_t) (rcw : Z),
    let result := fst (boot_policy changed target rcw) in
    rd rcon "boot" result = boot_val target
    /\ rd rcon "src" result
       = (if step_boot target rcw then 0 else RCON_SRC_I2C)
    /\ (target = BOOT_SD ->
        rd sd "speed" result = 1 /\ rd sd "wait" result = WAIT_PERIOD_50MS).
Proof. intros changed target rcw. apply PolicyMore.result_fields. Qed.

Lemma policy_result_fields_witness :
  rd sd "speed" (fst (boot_policy false BOOT_SD 0x00000140)) = 1
  /\ rd sd "wait" (fst (boot_policy false BOOT_SD 0x00000140)) = WAIT_PERIOD_50MS.
Proof.
  destruct (policy_result_fields false BOOT_SD 0x00000140) as (_ & _ & Hsd).
  apply Hsd. reflexivity.
Defined.

(** X5.  When the boot field already is the target, the policy only sets
    bits and clears none: bit 8 ([src]) for QSPI and MMC, bits 8 and 16-19
    ([src], wait period, speed) for SD.  PHY, oscillator, PLL and every
    other bit of the word read are kept. *)
Theorem policy_without_switch_only_sets_bits :
  forall (changed : bool) (target : boot_t) (rcw : Z),
    step_boot target rcw = false ->
    fst (boot_policy changed target rcw)
    = Z.lor rcw (match target with
                 | BOOT_SD => 0x000F0100
                 | _ => 0x00000100
                 end).
Proof.
  intros changed target rcw Hboot.
  rewrite (PolicyMore.no_switch_steps changed target rcw Hboot).
  cbv zeta. rewrite PolicyMore.src_step.
  destruct target; try reflexivity.
  rewrite PolicyMore.speed_step, PolicyMore.wait_step.
  rewrite <- !Z.lor_assoc. reflexivity.
Qed.

Lemma policy_without_switch_only_sets_bits_witness :
  fst (boot_policy false BOOT_MMC 0x80008063) = Z.lor 0x80008063 0x00000100.
Proof.
  apply (policy_without_switch_only_sets_bits false BOOT_MMC 0x80008063).
  reflexivity.
Defined.

(** X6.  The flag after the policy is the value [changed] held before it
    or the word not being compliant; started from false, the policy
    keeps the word and the flag exactly on the compliant words. *)
Theorem policy_flag_and_compliance :
  forall (changed : bool) (target : boot_t) (rcw : Z),
    snd (boot_policy changed target rcw)
    = changed || negb (compliant target rcw)
    /\ (boot_policy false target rcw = (rcw, false)
        <-> compliant target rcw = true).
Proof.
  intros changed target rcw.
  assert (Hflag : forall c, snd (boot_policy c target rcw)
                            = c || negb (compliant target rcw)).
  { intros c. rewrite PolicyFacts.changed_flag.
    rewrite <- PolicyMore.steps_not_compliant, !orb_assoc. reflexivity. }
  split; [apply Hflag|]. split.
  - intros Heq. pose proof (Hflag false) as H. rewrite Heq in H.
    cbn [snd orb] in H. apply negb_false_iff. symmetry. exact H.
  - apply PolicyFacts.compliant_untouched.
Qed.

Lemma policy_flag_and_compliance_witness :
  boot_policy false BOOT_SD 0x000F0140 = (0x000F0140, false).
Proof.
  apply (proj2 (policy_flag_and_compliance false BOOT_SD 0x000F0140)).
  reflexivity.
Defined.

(** X7.  Two passes always suffice: the first pass leaves the boot field
    at the target, the second pass changes something exactly when the
    first switched the boot media, its result is compliant, and a
    further pass keeps the word and the flag. *)
Theorem policy_settles_after_two_passes :
  forall (c1 c2 c3 : bool) (target : boot_t) (rcw : Z),
    let first := fst (boot_policy c1 target rcw) in
    let second := fst (boot_policy c2 target first) in
    step_boot target first = false
    /\ snd (boot_policy c2 target first) = c2 || step_boot target rcw
    /\ compliant target second = true
    /\ boot_policy c3 target second = (second, c3).
Proof.
  intros c1 c2 c3 target rcw first second.
  destruct (PolicyMore.result_fields c1 target rcw) as (Hb & Hs & Hsd).
  fold first in Hb, Hs, Hsd.
  assert (Hstep : step_boot target first = false).
  { unfold step_boot. rewrite Hb, Z.eqb_refl. reflexivity. }
  assert (Hc : compliant target second = true).
  { apply PolicyFacts.no_switch_compliant. exact Hstep. }
  repeat split; try assumption.
  - rewrite PolicyFacts.changed_flag, Hstep.
    unfold step_src. rewrite Hs.
    assert (Hsd' : step_sd target first = false).
    { destruct target; try reflexivity.
      destruct (Hsd eq_refl) as [H1 H2].
      unfold step_sd. rewrite Hstep, H1, H2. reflexivity. }
    rewrite Hsd'.
    destruct (step_boot target rcw); rewrite ?orb_false_r; reflexivity.
  - apply PolicyFacts.compliant_untouched. exact Hc.
Qed.

(* ================================================================== *)
(** * The labels of the report *)
(* ================================================================== *)

(** X8.  The fields [print_rcw] labels never fall through to "?" except
    the boot media: PHY, boot source, oscillator and PLL always get a
    name, and the boot media are "?" exactly for the values 1, 4, 5, 6
    and 7 of the boot field. *)
Theorem report_labels :
  forall rcw : Z,
    phy_to_str (rd rcon "phy" rcw) <> "?"
    /\ src_to_str (rd rcon "src" rcw) <> "?"
    /\ xosc_to_str (rd rcon "xosc" rcw) <> "?"
    /\ pll_to_str (rd rcon "pll" rcw) <> "?"
    /\ (boot_to_str (rd rcon "boot" rcw) = "?"
        <-> In (rd rcon "boot" rcw) [1; 4; 5; 6; 7]).
Proof.
  intros rcw.
  pose proof (BitfieldFacts.get_range 0 2 rcw) as Hphy.
  pose proof (BitfieldFacts.get_range 8 1 rcw) as Hsrc.
  pose proof (BitfieldFacts.get_range 15 1 rcw) as Hxosc.
  pose proof (BitfieldFacts.get_range 31 1 rcw) as Hpll.
  pose proof (BitfieldFacts.get_range 5 3 rcw) as Hboot.
  change (Bitfield.get 0 2 rcw) with (rd rcon "phy" rcw) in Hphy.
  change (Bitfield.get 8 1 rcw) with (rd rcon "src" rcw) in Hsrc.
  change (Bitfield.get 15 1 rcw) with (rd rcon "xosc" rcw) in Hxosc.
  change (Bitfield.get 31 1 rcw) with (rd rcon "pll" rcw) in Hpll.
  change (Bitfield.get 5 3 rcw) with (rd rcon "boot" rcw) in Hboot.
  change (2 ^ 2) with 4 in Hphy. change (2 ^ 1) with 2 in Hsrc, Hxosc, Hpll.
  change (2 ^ 3) with 8 in Hboot.
  unfold phy_to_str, src_to_str, xosc_to_str, pll_to_str, boot_to_str,
    RCON_SRC_I2C.
  repeat split.
  - destruct (Z.eqb_spec (rd rcon "phy" rcw) 0); [discriminate|].
    destruct (Z.eqb_spec (rd rcon "phy" rcw) 1); [discriminate|].
    destruct (Z.eqb_spec (rd rcon "phy" rcw) 2); [discriminate|].
    destruct (Z.eqb_spec (rd rcon "phy" rcw) 3); [discriminate|]. lia.
  - destruct (Z.eqb_spec (rd rcon "src" rcw) 0); [discriminate|].
    destruct (Z.eqb_spec (rd rcon "src" rcw) 1); [discriminate|]. lia.
  - destruct (Z.eqb_spec (rd rcon "xosc" rcw) 0); [discriminate|].
    destruct (Z.eqb_spec (rd rcon "xosc" rcw) 1); [discriminate|]. lia.
  - destruct (Z.eqb_spec (rd rcon "pll" rcw) 0); [discriminate|].
    destruct (Z.eqb_spec (rd rcon "pll" rcw) 1); [discriminate|]. lia.
  - destruct (Z.eqb_spec (rd rcon "boot" rcw) 0); [discriminate|].
    destruct (Z.eqb_spec (rd rcon "boot" rcw) 2); [discriminate|].
    destruct (Z.eqb_spec (rd rcon "boot" rcw) 3); [discriminate|].
    intros _. simpl. lia.
  - intros Hin. simpl in Hin.
    destruct (Z.eqb_spec (rd rcon "boot" rcw) 0); [lia|].
    destruct (Z.eqb_spec (rd rcon "boot" rcw) 2); [lia|].
    destruct (Z.eqb_spec (rd rcon "boot" rcw) 3); [lia|]. reflexivity.
Qed.

Lemma report_labels_witness : boot_to_str (rd rcon "boot" 0x00000020) = "?".
Proof.
  destruct (report_labels 0x00000020) as (_ & _ & _ & _ & Hboot).
  apply Hboot. simpl. tauto.
Defined.

(* ================================================================== *)
(** * More on the EEPROM layer *)
(* ================================================================== *)

Section Transfers.

Context {St : Type}.
Variable lib : libmcp2221 St.
Variable host : byte_order.

Lemma invoke_run {A} (c : call) (f : St -> A * St) (s : St) :
  invoke c f s = (Next (fst (f s)), snd (f s), [Call c]).
Proof. unfold invoke. destruct (f s). reflexivity. Qed.

Lemma s32g_rcw_write_run address rcw (s : St) :
  s32g_rcw_write lib host address rcw s
  = (Next (fst (fst (mcp2221_i2cWriteRead lib address
                       (0 :: rcw_wire host rcw) 0 s))),
     snd (mcp2221_i2cWriteRead lib address (0 :: rcw_wire host rcw) 0 s),
     [Call (mcp_i2cWriteRead address (0 :: rcw_wire host rcw) 0)]).
Proof.
  unfold s32g_rcw_write, at24c01_write.
  rewrite OctetFacts.rcw_wire_octets.
  unfold memcpy. cbn [List.length Nat.leb Nat.add MAX_BUFSZ andb repeat tl
                      firstn skipn app].
  unfold bind, ret. rewrite invoke_run. reflexivity.
Qed.

Lemma s32g_rcw_read_run address (s : St) :
  s32g_rcw_read lib host address s
  = (Next (fst (fst (mcp2221_i2cWriteRead lib address [0] 4 s)),
           rcw_unwire host
             (snd (fst (mcp2221_i2cWriteRead lib address [0] 4 s)))),
     snd (mcp2221_i2cWriteRead lib address [0] 4 s),
     [Call (mcp_i2cWriteRead address [0] 4)]).
Proof.
  unfold s32g_rcw_read, at24c01_read, bind, ret.
  rewrite invoke_run. reflexivity.
Qed.

Lemma print_rcw_run rcw (s : St) :
  print_rcw rcw s = (Next tt, s, report rcw).
Proof.
  unfold report, events, print_rcw.
  destruct (rd rcon "boot" rcw =? boot_val BOOT_SD); reflexivity.
Qed.

End Transfers.

Lemma report_quiet rcw :
  calls (report rcw) = []
  /\ existsb is_error_message (report rcw) = false.
Proof.
  unfold report, events, print_rcw.
  destruct (rd rcon "boot" rcw =? boot_val BOOT_SD); split; reflexivity.
Qed.

(** X9.  [s32g_rcw_write] never leaves its buffer: for every word and on
    either host it makes one write-only transfer of five bytes, offset 0
    followed by the word's bytes from the least significant one, each
    within 0..255, and returns the transfer's status. *)
Theorem s32g_rcw_write_five_bytes :
  forall (St : Type) (lib : libmcp2221 St) (host : byte_order)
         (address rcw : Z) (s : St),
    let sent := [0; octet rcw 0; octet rcw 1; octet rcw 2; octet rcw 3] in
    s32g_rcw_write lib host address rcw s
    = (Next (fst (fst (mcp2221_i2cWriteRead lib address sent 0 s))),
       snd (mcp2221_i2cWriteRead lib address sent 0 s),
       [Call (mcp_i2cWriteRead address sent 0)])
    /\ Forall (fun b => 0 <= b < 256) sent.
Proof.
  intros St lib host address rcw s sent. split.
  - rewrite s32g_rcw_write_run, OctetFacts.rcw_wire_octets. reflexivity.
  - unfold sent. repeat constructor; try lia; apply OctetFacts.octet_range; lia.
Qed.

(** X10.  Written and read again: when the EEPROM returns the bytes that
    were sent, [s32g_rcw_read] after [s32g_rcw_write] yields the word
    written, reduced to 32 bits, on either host. *)
Theorem write_then_read_gives_word :
  forall (St : Type) (lib : libmcp2221 St) (host : byte_order)
         (address rcw : Z) (s : St),
    let w := mcp2221_i2cWriteRead lib address (0 :: rcw_wire host rcw) 0 s in
    let r := mcp2221_i2cWriteRead lib address [0] 4 (snd w) in
    snd (fst r) = rcw_wire host rcw ->
    bind (s32g_rcw_write lib host address rcw)
         (fun _ => s32g_rcw_read lib host address) s
    = (Next (fst (fst r), rcw mod 2 ^ 32), snd r,
       [Call (mcp_i2cWriteRead address (0 :: rcw_wire host rcw) 0);
        Call (mcp_i2cWriteRead address [0] 4)]).
Proof.
  intros St lib host address rcw s w r Hbytes.
  unfold bind. rewrite s32g_rcw_write_run, s32g_rcw_read_run.
  fold w. fold r. rewrite Hbytes, OctetFacts.rcw_unwire_wire. reflexivity.
Qed.

Lemma write_then_read_gives_word_witness :
  bind (s32g_rcw_write Sim.lib BigEndian 0x50 0x000F0140)
       (fun _ => s32g_rcw_read Sim.lib BigEndian 0x50)
       (Sim.board [0; 0; 0; 0] false)
  = (Next (0, 0x000F0140 mod 2 ^ 32), Sim.board [0x40; 0x01; 0x0F; 0x00] false,
     [Call (mcp_i2cWriteRead 0x50 [0; 0x40; 0x01; 0x0F; 0x00] 0);
      Call (mcp_i2cWriteRead 0x50 [0] 4)]).
Proof.
  apply (write_then_read_gives_word Sim.state Sim.lib BigEndian 0x50
           0x000F0140 (Sim.board [0; 0; 0; 0] false)).
  reflexivity.
Defined.

(** X11.  [at24c01_write] has no guard: with a length above [MAX_BUFSZ],
    or above the size of the payload, the copy leaves an array, and this
    happens before anything is sent. *)
Theorem at24c01_write_overrun :
  forall (St : Type) (lib : libmcp2221 St) (address offset : Z)
         (w_buf : list Z) (w_len : nat) (s : St),
    (MAX_BUFSZ < w_len)%nat \/ (List.length w_buf < w_len)%nat ->
    at24c01_write lib address offset w_buf w_len s = (OutOfBounds, s, []).
Proof.
  intros St lib address offset w_buf w_len s Hlen.
  unfold at24c01_write, memcpy.
  replace (List.length (offset :: tl (repeat 0 (MAX_BUFSZ + 1))))
    with (MAX_BUFSZ + 1)%nat by reflexivity.
  replace ((w_len <=? List.length w_buf)%nat
           && (1 + w_len <=? MAX_BUFSZ + 1)%nat) with false; [reflexivity|].
  symmetry. apply andb_false_iff. destruct Hlen as [H|H].
  - right. apply Nat.leb_gt. lia.
  - left. apply Nat.leb_gt. lia.
Qed.

Lemma at24c01_write_overrun_witness :
  at24c01_write Sim.lib 0x50 0 [1; 2; 3; 4] 5 (Sim.board [0; 0; 0; 0] false)
  = (OutOfBounds, Sim.board [0; 0; 0; 0] false, []).
Proof.
  apply (at24c01_write_overrun Sim.state Sim.lib 0x50 0 [1; 2; 3; 4] 5
           (Sim.board [0; 0; 0; 0] false)).
  right. simpl. lia.
Defined.

(* ================================================================== *)
(** * Runs of [main] *)
(* ================================================================== *)

Lemma calls_app t u : calls (t ++ u) = calls t ++ calls u.
Proof. unfold calls. apply flat_map_app. Qed.

Lemma calls_call c t : calls (Call c :: t) = c :: calls t.
Proof. reflexivity. Qed.

Lemma calls_puts x t : calls (Puts x :: t) = calls t.
Proof. reflexivity. Qed.

Lemma calls_printf f a t : calls (Printf f a :: t) = calls t.
Proof. reflexivity. Qed.

Lemma calls_eprintf f a t : calls (Eprintf f a :: t) = calls t.
Proof. reflexivity. Qed.

Lemma calls_nil : calls [] = [].
Proof. reflexivity. Qed.

Lemma calls_report rcw : calls (report rcw) = [].
Proof. apply report_quiet. Qed.

Lemma errors_app t u :
  existsb is_error_message (t ++ u)
  = existsb is_error_message t || existsb is_error_message u.
Proof. apply existsb_app. Qed.

Lemma errors_report rcw : existsb is_error_message (report rcw) = false.
Proof. apply report_quiet. Qed.

Lemma parse_args_help (St : Type) sscanf_x : forall args o (s : St),
  requests_help args = true ->
  parse_args sscanf_x args o s
  = (Return 0, s, getopt_messages args ++ help_text).
Proof.
  induction args as [|a rest IH]; intros o s Hhelp; [discriminate|].
  destruct (requests_help [a]) eqn:Ha.
  - cbn [getopt_messages]. rewrite Ha.
    destruct a as [option_index optarg | c];
      cbn [requests_help] in Ha; rewrite orb_false_r in Ha;
      cbn [parse_args]; rewrite Ha; reflexivity.
  - rewrite parse_args_cons by exact Ha.
    rewrite requests_help_cons, Ha in Hhelp.
    rewrite IH by exact Hhelp.
    rewrite getopt_messages_cons by exact Ha.
    unfold with_output. cbn [fst snd]. rewrite app_assoc. reflexivity.
Qed.

Lemma main_help (St : Type) (lib : libmcp2221 St) host sscanf_x scanf_d
    changed_uninit args (s : St) :
  requests_help args = true ->
  main lib host sscanf_x scanf_d changed_uninit args s
  = (Return 0, s,
     Puts "rcwtool: read/write I2C-EEPROM" :: getopt_messages args
     ++ help_text).
Proof.
  intros Hhelp. unfold main. fold default_options.
  cbv beta iota zeta delta [bind puts emit].
  rewrite parse_args_help by exact Hhelp. reflexivity.
Qed.

(** The diagnostics of [getopt_long] are diagnostics and nothing else. *)
Lemma getopt_messages_diagnostics args :
  Forall (fun e => e = Diagnostic) (getopt_messages args).
Proof.
  induction args as [|a rest IH]; [constructor|].
  cbn [getopt_messages]. destruct (requests_help [a]); [constructor|].
  destruct a as [option_index optarg | c]; cbn [diagnostic app];
    [exact IH|].
  destruct (Ascii.eqb c "?"); [constructor; [reflexivity | exact IH] | exact IH].
Qed.

Lemma calls_getopt args : calls (getopt_messages args) = [].
Proof.
  induction (getopt_messages_diagnostics args) as [|e t He _ IH];
    [reflexivity|].
  subst e. exact IH.
Qed.

Lemma errors_getopt args :
  existsb is_error_message (getopt_messages args) = false.
Proof.
  induction (getopt_messages_diagnostics args) as [|e t He _ IH];
    [reflexivity|].
  subst e. exact IH.
Qed.

Lemma stderr_getopt args :
  filter on_stderr (getopt_messages args) = getopt_messages args.
Proof.
  induction (getopt_messages_diagnostics args) as [|e t He _ IH];
    [reflexivity|].
  subst e. cbn [filter on_stderr]. rewrite IH. reflexivity.
Qed.

Lemma stderr_report rcw : filter on_stderr (report rcw) = [].
Proof.
  unfold report, events, print_rcw.
  destruct (rd rcon "boot" rcw =? boot_val BOOT_SD); reflexivity.
Qed.

(** Runs [main] symbolically: the monad is unfolded, the library calls
    are kept as projections of their results, and every test the run
    makes is split. *)
Ltac exec :=
  repeat first
    [ rewrite s32g_rcw_write_run
    | rewrite s32g_rcw_read_run
    | rewrite print_rcw_run
    | rewrite invoke_run
    | progress cbv beta iota zeta delta
        [open_device prepare_bus read_modify_write write_back
         bind ret return_ emit puts printf eprintf invoke_]
    | progress cbn [fst snd app]
    | match goal with
      | |- context [if ?b then _ else _] => destruct b eqn:?
      end ].

Ltac calc_calls :=
  repeat (rewrite ?calls_app, ?calls_call, ?calls_puts, ?calls_printf,
            ?calls_eprintf, ?calls_report, ?calls_getopt, ?calls_nil;
          cbn [app]).



Ltac calc_errors :=
  repeat (rewrite ?errors_app, ?errors_report, ?errors_getopt;
          cbn [existsb is_error_message orb app]).

Lemma stderr_help : filter on_stderr help_text = [].
Proof. reflexivity. Qed.

Ltac calc_stderr :=
  repeat (rewrite ?filter_app, ?stderr_report, ?stderr_getopt, ?stderr_help;
          cbn [filter on_stderr app]);
  rewrite ?app_nil_r.

(** X13.  A run ends with status 0 or -1, never in an access out of
    bounds.  With status 0 the standard error holds the diagnostics
    [getopt_long] printed for the options it rejected and nothing of
    [main]; status -1 comes with an error message of [main], or with the
    note that no device was found, which goes to the standard output. *)
Theorem main_status_and_messages :
  forall (St : Type) (lib : libmcp2221 St) (host : byte_order)
         (sscanf_x : string -> option Z) (scanf_d : option Z)
         (changed_uninit : bool) (args : list getopt_result) (s : St),
    let run := main lib host sscanf_x scanf_d changed_uninit args s in
    (status run = Some 0 \/ status run = Some (-1))
    /\ (status run = Some 0 ->
        filter on_stderr (events run) = getopt_messages args
        /\ existsb is_error_message (events run) = false)
    /\ (status run = Some (-1) ->
        existsb is_error_message (events run) = true
        \/ In (Puts "Note: no devices found!") (events run)).
Proof.
  intros St lib host sscanf_x scanf_d changed_uninit args s run.
  subst run. unfold main, events, status. fold default_options.
  cbv beta delta [bind puts emit].
  destruct (requests_help args) eqn:Hhelp.
  - rewrite parse_args_help by exact Hhelp. cbn [fst snd app].
    split; [left; reflexivity|]. split.
    + intros _. split; [calc_stderr; reflexivity | calc_errors; reflexivity].
    + intros H; discriminate H.
  - rewrite parse_args_no_help by exact Hhelp.
    exec; cbn [fst snd];
      (split; [first [left; reflexivity | right; reflexivity]|]);
      (split; [intros H;
               first [discriminate H
                     | split; [calc_stderr; reflexivity
                              | calc_errors; reflexivity]]|]);
      intros H; first [discriminate H
                      | left; calc_errors; reflexivity
                      | right; apply in_cons, in_or_app; right;
                        simpl; tauto].
Qed.

Lemma main_status_and_messages_witness :
  filter on_stderr
    (events (Sim.run true [Short "?"; Long IDX_BOOT "qspi"]
               (Sim.board [0x40; 0x01; 0x0F; 0x00] false)))
  = [Diagnostic]
  /\ existsb is_error_message
       (events (Sim.run true [Short "?"; Long IDX_BOOT "qspi"]
                  (Sim.board [0x40; 0x01; 0x0F; 0x00] false))) = false.
Proof.
  apply (main_status_and_messages Sim.state Sim.lib LittleEndian Sim.sscanf_x
           None true [Short "?"; Long IDX_BOOT "qspi"]
           (Sim.board [0x40; 0x01; 0x0F; 0x00] false)).
  reflexivity.
Defined.

(** X14.  A help request wins over everything else on the command line:
    with [--help] or [-h] anywhere among the options the run prints the
    banner and the help text, after the diagnostics of the options
    [getopt_long] rejected before it, touches no hardware and returns 0,
    even when an address before or after it is illegal. *)
Theorem help_request_returns_zero :
  forall (St : Type) (lib : libmcp2221 St) (host : byte_order)
         (sscanf_x : string -> option Z) (scanf_d : option Z)
         (changed_uninit : bool) (args : list getopt_result) (s : St),
    requests_help args = true ->
    main lib host sscanf_x scanf_d changed_uninit args s
    = (Return 0, s,
       Puts "rcwtool: read/write I2C-EEPROM" :: getopt_messages args
       ++ help_text)
    /\ calls (Puts "rcwtool: read/write I2C-EEPROM" :: getopt_messages args
              ++ help_text) = []
    /\ List.length help_text = 5%nat.
Proof.
  intros St lib host sscanf_x scanf_d changed_uninit args s Hhelp.
  split; [|split; [|reflexivity]].
  - apply main_help. exact Hhelp.
  - calc_calls. reflexivity.
Qed.

Lemma help_request_returns_zero_witness :
  Sim.run false [Long IDX_ADDR "fff"; Short "h"; Long IDX_BOOT "mmc"]
    (Sim.board [0; 0; 0; 0] false)
  = (Return 0, Sim.board [0; 0; 0; 0] false,
     Puts "rcwtool: read/write I2C-EEPROM" :: help_text).
Proof.
  apply (help_request_returns_zero Sim.state Sim.lib LittleEndian Sim.sscanf_x
           None false [Long IDX_ADDR "fff"; Short "h"; Long IDX_BOOT "mmc"]
           (Sim.board [0; 0; 0; 0] false)).
  reflexivity.
Defined.

(** Brings the tests met on a path to the form of the hypothesis [H]. *)
Ltac clean H :=
  repeat match goal with
    | H' : negb _ = true |- _ => apply negb_true_iff in H'
    | H' : negb _ = false |- _ => apply negb_false_iff in H'
    end;
  try (rewrite H in *).

(** X15.  What goes over the bus once the bridge is set up.  A first
    read that fails ends the run with -1 after that one transfer.  After
    a first read that succeeds, the word is written exactly when the
    flag of the policy is set, the bytes written are the policy's word
    for the word read, a second read follows exactly when the write
    succeeded, and nothing else is transferred. *)
Theorem read_modify_write_transfers :
  forall (St : Type) (lib : libmcp2221 St) (host : byte_order)
         (changed_uninit : bool) (o : options) (s : St),
    let read := mcp_i2cWriteRead (eeprom_address o) [0] 4 in
    let r := mcp2221_i2cWriteRead lib (eeprom_address o) [0] 4 s in
    let p := boot_policy changed_uninit (boot_media o)
               (rcw_unwire host (snd (fst r))) in
    let w := mcp2221_i2cWriteRead lib (eeprom_address o)
               (0 :: rcw_wire host (fst p)) 0 (snd r) in
    let run := read_modify_write lib host changed_uninit o s in
    (fst (fst r) <> MCP2221_SUCCESS lib ->
     run = (Return (-1), mcp2221_exit lib (snd r),
            [Call read;
             Eprintf "Error: cannot read RCW: rv=%d!\n" [ArgD (fst (fst r))];
             Call mcp_exit]))
    /\ (fst (fst r) = MCP2221_SUCCESS lib ->
        calls (events run)
        = read
          :: (if snd p
              then mcp_i2cWriteRead (eeprom_address o)
                     (0 :: rcw_wire host (fst p)) 0
                   :: (if fst (fst w) =? MCP2221_SUCCESS lib
                       then [read] else [])
              else [])
          ++ [mcp_exit])
    /\ (fst (fst r) = MCP2221_SUCCESS lib -> snd p = false ->
        status run = Some 0 /\ final run = mcp2221_exit lib (snd r)).
Proof.
  intros St lib host changed_uninit o s read r p w run.
  subst run read w p r. unfold events, status, final. split; [|split].
  - intros Hr. apply Z.eqb_neq in Hr.
    exec; clean Hr; try discriminate; reflexivity.
  - intros Hr. apply Z.eqb_eq in Hr.
    exec; calc_calls; clean Hr; try discriminate; try reflexivity.
    all: match goal with
         | H : (_ =? _) = _ |- context [if ?b then _ else _] =>
             rewrite H
         end; reflexivity.
  - intros Hr Hp. apply Z.eqb_eq in Hr.
    exec; clean Hr; try discriminate; try congruence; split; reflexivity.
Qed.

Lemma read_modify_write_transfers_witness :
  calls (events (read_modify_write Sim.lib LittleEndian false default_options
                   (Sim.board [0x40; 0x00; 0x00; 0x00] false)))
  = [mcp_i2cWriteRead 0x50 [0] 4;
     mcp_i2cWriteRead 0x50 [0; 0x40; 0x01; 0x0F; 0x00] 0;
     mcp_i2cWriteRead 0x50 [0] 4;
     mcp_exit].
Proof.
  exact (proj1 (proj2 (read_modify_write_transfers Sim.state Sim.lib
                         LittleEndian false default_options
                         (Sim.board [0x40; 0x00; 0x00; 0x00] false)))
               eq_refl).
Defined.

(** X16.  Setting up the bus: when the state query succeeds, a pending
    transfer is cancelled exactly when the state is not idle, the
    divider 27 is set after that, and with the divider accepted the run
    goes on without a message. *)
Theorem prepare_bus_cancels_when_not_idle :
  forall (St : Type) (lib : libmcp2221 St) (s : St),
    let q := mcp2221_i2cState lib s in
    let idle := snd (fst q) =? MCP2221_I2C_IDLE lib in
    let s1 := if idle then snd q else mcp2221_i2cCancel lib (snd q) in
    let d := mcp2221_i2cDivider lib 27 s1 in
    fst (fst q) = MCP2221_SUCCESS lib ->
    fst d = MCP2221_SUCCESS lib ->
    prepare_bus lib s
    = (Next tt, snd d,
       Call mcp_i2cState
       :: (if idle then [] else [Call mcp_i2cCancel])
       ++ [Call (mcp_i2cDivider 27)]).
Proof.
  intros St lib s q idle s1 d Hq Hd. subst d s1 idle q.
  apply Z.eqb_eq in Hq.
  unfold prepare_bus. exec; clean Hq; try discriminate.
  - apply Z.eqb_eq in Hd. congruence.
  - reflexivity.
  - apply Z.eqb_eq in Hd. congruence.
  - reflexivity.
Qed.

Lemma prepare_bus_cancels_when_not_idle_witness :
  prepare_bus Sim.lib
    {| Sim.eeprom := [0; 0; 0; 0]; Sim.i2c_address := 0x50;
       Sim.write_protect := false; Sim.bridges := 1; Sim.pending := true |}
  = (Next tt, Sim.board [0; 0; 0; 0] false,
     [Call mcp_i2cState; Call mcp_i2cCancel; Call (mcp_i2cDivider 27)]).
Proof.
  exact (prepare_bus_cancels_when_not_idle Sim.state Sim.lib
           {| Sim.eeprom := [0; 0; 0; 0]; Sim.i2c_address := 0x50;
              Sim.write_protect := false; Sim.bridges := 1;
              Sim.pending := true |} eq_refl eq_refl).
Defined.

(** X17.  Which bridge is opened: [mcp2221_open] is called exactly when
    one bridge was found, and [mcp2221_open_byIndex] only with a number
    from 0 up to the count of bridges found, the number read from the
    standard input or 0 when none could be read. *)
Theorem open_device_index_in_range :
  forall (St : Type) (lib : libmcp2221 St) (scanf_d : option Z) (s : St),
    let count := fst (mcp2221_find lib (mcp2221_init lib s)) in
    let opened := calls (events (open_device lib scanf_d s)) in
    (In mcp_open opened <-> count = 1)
    /\ (forall num, In (mcp_open_byIndex num) opened ->
          0 <= num < count
          /\ num = match scanf_d with Some n => n | None => 0 end).
Proof.
  intros St lib scanf_d s count opened. subst opened count.
  unfold events, open_device.
  exec; calc_calls; cbn [In]; split;
    try (intros num Hin;
         repeat match goal with
           | H : _ \/ _ |- _ => destruct H
           | H : _ = _ :> call |- _ => try discriminate H; try (injection H as <-)
           | H : False |- _ => destruct H
           end);
    repeat match goal with
      | H : (_ =? _) = true |- _ => apply Z.eqb_eq in H
      | H : (_ =? _) = false |- _ => apply Z.eqb_neq in H
      | H : _ || _ = false |- _ => apply orb_false_iff in H; destruct H
      | H : (_ <? _) = false |- _ => apply Z.ltb_ge in H
      | H : (_ >=? _) = false |- _ => rewrite Z.geb_leb in H; apply Z.leb_gt in H
      end;
    try (split; [lia | reflexivity]);
    split; intros; try lia; try tauto;
    repeat match goal with
      | H : _ \/ _ |- _ => destruct H
      | H : _ = _ :> call |- _ => discriminate H
      | H : False |- _ => destruct H
      end.
Qed.

Lemma open_device_index_in_range_witness :
  0 <= 2 < 3 /\ 2 = 2.
Proof.
  destruct (open_device_index_in_range Sim.state Sim.lib (Some 2)
              {| Sim.eeprom := [0; 0; 0; 0]; Sim.i2c_address := 0x50;
                 Sim.write_protect := false; Sim.bridges := 3;
                 Sim.pending := false |}) as [_ Hindex].
  apply (Hindex 2). simpl. tauto.
Defined.


(* ================================================================== *)
(** * The claims on a whole run *)
(* ================================================================== *)

Section WholeRun.

Context {St : Type}.
Variable lib : libmcp2221 St.
Variable host : byte_order.
Variable scanf_d : option Z.
Variable changed_uninit : bool.

(** The calls of lines 351-410 after a first read that succeeded. *)
Lemma read_modify_write_calls (o : options) (s : St) :
  fst (fst (mcp2221_i2cWriteRead lib (eeprom_address o) [0] 4 s))
  = MCP2221_SUCCESS lib ->
  calls (events (read_modify_write lib host changed_uninit o s))
  = mcp_i2cWriteRead (eeprom_address o) [0] 4
    :: (if snd (boot_policy changed_uninit (boot_media o)
                  (rcw_unwire host
                     (snd (fst (mcp2221_i2cWriteRead lib (eeprom_address o)
                                  [0] 4 s)))))
        then mcp_i2cWriteRead (eeprom_address o)
               (0 :: rcw_wire host
                       (fst (boot_policy changed_uninit (boot_media o)
                               (rcw_unwire host
                                  (snd (fst (mcp2221_i2cWriteRead lib
                                               (eeprom_address o) [0] 4 s)))))))
               0
             :: (if fst (fst (mcp2221_i2cWriteRead lib (eeprom_address o)
                                (0 :: rcw_wire host
                                        (fst (boot_policy changed_uninit
                                                (boot_media o)
                                                (rcw_unwire host
                                                   (snd (fst (mcp2221_i2cWriteRead
                                                                lib
                                                                (eeprom_address o)
                                                                [0] 4 s)))))))
                                0
                                (snd (mcp2221_i2cWriteRead lib
                                        (eeprom_address o) [0] 4 s))))
                    =? MCP2221_SUCCESS lib
                 then [mcp_i2cWriteRead (eeprom_address o) [0] 4] else [])
        else [])
    ++ [mcp_exit].
Proof.
  intros Hr. apply Z.eqb_eq in Hr. unfold events.
  exec; calc_calls; clean Hr; try discriminate; try reflexivity.
  all: match goal with
       | H : (_ =? _) = _ |- context [if ?b then _ else _] => rewrite H
       end; reflexivity.
Qed.

(** Lines 351-410 when the word is written and read again: the run
    returns 0 whatever the second read delivers. *)
Lemma read_modify_write_verified (o : options) (s : St) :
  let r1 := mcp2221_i2cWriteRead lib (eeprom_address o) [0] 4 s in
  let word := rcw_unwire host (snd (fst r1)) in
  let p := boot_policy changed_uninit (boot_media o) word in
  let w := mcp2221_i2cWriteRead lib (eeprom_address o)
             (0 :: rcw_wire host (fst p)) 0 (snd r1) in
  let r2 := mcp2221_i2cWriteRead lib (eeprom_address o) [0] 4 (snd w) in
  fst (fst r1) = MCP2221_SUCCESS lib ->
  snd p = true ->
  fst (fst w) = MCP2221_SUCCESS lib ->
  fst (fst r2) = MCP2221_SUCCESS lib ->
  read_modify_write lib host changed_uninit o s
  = (Return 0, mcp2221_exit lib (snd r2),
     [Call (mcp_i2cWriteRead (eeprom_address o) [0] 4);
      Printf "RCW: 0x%08x\n" [ArgX word]]
     ++ report word
     ++ [Call (mcp_i2cWriteRead (eeprom_address o)
                 (0 :: rcw_wire host (fst p)) 0);
         Call (mcp_i2cWriteRead (eeprom_address o) [0] 4);
         Printf "RCW: 0x%08x\n" [ArgX (rcw_unwire host (snd (fst r2)))]]
     ++ report (rcw_unwire host (snd (fst r2)))
     ++ [Call mcp_exit]).
Proof.
  intros r1 word p w r2 H1 Hp Hw H2. subst r2 w p word r1.
  apply Z.eqb_eq in H1, Hw, H2.
  exec; clean H1; try discriminate; clean Hw; try discriminate;
    clean H2; try discriminate; try congruence.
Qed.

(** Every transfer of the part of a run that follows the option loop
    goes to the address of the options, and what is written is the word
    of the policy for the boot media of the options. *)
Lemma after_options_transfers (o : options) (s : St) address payload n :
  In (mcp_i2cWriteRead address payload n)
     (calls (events (after_options lib host scanf_d changed_uninit o s))) ->
  address = eeprom_address o
  /\ (n = 0%nat ->
      exists word,
        payload
        = 0 :: rcw_wire host
                 (fst (boot_policy changed_uninit (boot_media o) word))).
Proof.
  unfold events, after_options.
  exec; calc_calls; cbn [In]; intros Hin;
    repeat match goal with
      | H : _ \/ _ |- _ => destruct H
      | H : False |- _ => destruct H
      | H : _ = _ :> call |- _ =>
          first [discriminate H | injection H as <- <- <-]
      end;
    (split; [reflexivity|]); intros Hn; try discriminate Hn;
    eexists; reflexivity.
Qed.

End WholeRun.

(** C3, as the code has it.  After a write that succeeded the next
    transfer reads 4 bytes at offset 0 of the same device; the word read
    is printed and the run goes on, whatever bytes came back: they are
    compared with nothing.  A write or a second read that fails ends the
    run with status -1; the write is issued once.  And a run of [main]
    in which the word is written and read again returns 0, with no
    message after the second report, whatever the second read
    delivered. *)
Theorem write_back_rereads_without_comparing :
  forall (St : Type) (lib : libmcp2221 St) (host : byte_order),
    (forall (address rcw : Z) (s : St),
        let write := mcp_i2cWriteRead address (0 :: rcw_wire host rcw) 0 in
        let read := mcp_i2cWriteRead address [0] 4 in
        let w :=
          mcp2221_i2cWriteRead lib address (0 :: rcw_wire host rcw) 0 s in
        let r := mcp2221_i2cWriteRead lib address [0] 4 (snd w) in
        (fst (fst w) <> MCP2221_SUCCESS lib ->
         write_back lib host address rcw true s
         = (Return (-1), mcp2221_exit lib (snd w),
            [Call write;
             Eprintf "Error: cannot write RCW: rv=%d!\n" [ArgD (fst (fst w))];
             Call mcp_exit]))
        /\ (fst (fst w) = MCP2221_SUCCESS lib ->
            fst (fst r) <> MCP2221_SUCCESS lib ->
            write_back lib host address rcw true s
            = (Return (-1), mcp2221_exit lib (snd r),
               [Call write; Call read;
                Eprintf "Error: cannot read RCW: rv=%d!\n"
                        [ArgD (fst (fst r))];
                Call mcp_exit]))
        /\ (fst (fst w) = MCP2221_SUCCESS lib ->
            fst (fst r) = MCP2221_SUCCESS lib ->
            exists report : list event,
              write_back lib host address rcw true s
              = (Next tt, snd r,
                 Call write :: Call read
                 :: Printf "RCW: 0x%08x\n"
                           [ArgX (rcw_unwire host (snd (fst r)))]
                 :: report)
              /\ forallb (fun e => negb (is_error_message e)
                                   && negb (is_hardware_access e)) report
                 = true))
    /\ (forall (sscanf_x : string -> option Z) (scanf_d : option Z)
               (changed_uninit : bool) (args : list getopt_result)
               (s s1 s2 : St) (t1 t2 : list event),
          requests_help args = false ->
          let o := options_after sscanf_x args default_options in
          0 <= eeprom_address o <= 0x7f ->
          open_device lib scanf_d s = (Next tt, s1, t1) ->
          prepare_bus lib s1 = (Next tt, s2, t2) ->
          let read := mcp_i2cWriteRead (eeprom_address o) [0] 4 in
          let r1 := mcp2221_i2cWriteRead lib (eeprom_address o) [0] 4 s2 in
          let word := rcw_unwire host (snd (fst r1)) in
          let p := boot_policy changed_uninit (boot_media o) word in
          let w := mcp2221_i2cWriteRead lib (eeprom_address o)
                     (0 :: rcw_wire host (fst p)) 0 (snd r1) in
          let r2 :=
            mcp2221_i2cWriteRead lib (eeprom_address o) [0] 4 (snd w) in
          fst (fst r1) = MCP2221_SUCCESS lib ->
          snd p = true ->
          fst (fst w) = MCP2221_SUCCESS lib ->
          fst (fst r2) = MCP2221_SUCCESS lib ->
          main lib host sscanf_x scanf_d changed_uninit args s
          = (Return 0, mcp2221_exit lib (snd r2),
             Puts "rcwtool: read/write I2C-EEPROM" :: getopt_messages args
             ++ t1 ++ t2
             ++ [Call read; Printf "RCW: 0x%08x\n" [ArgX word]]
             ++ report word
             ++ [Call (mcp_i2cWriteRead (eeprom_address o)
                         (0 :: rcw_wire host (fst p)) 0);
                 Call read;
                 Printf "RCW: 0x%08x\n"
                        [ArgX (rcw_unwire host (snd (fst r2)))]]
             ++ report (rcw_unwire host (snd (fst r2)))
             ++ [Call mcp_exit])).
Proof.
  intros St lib host. split.
  - intros address rcw s write read w r.
    assert (Hwire : exists b0 b1 b2 b3, rcw_wire host rcw = [b0; b1; b2; b3]).
    { rewrite OctetFacts.rcw_wire_octets. eauto. }
    destruct Hwire as (b0 & b1 & b2 & b3 & Hwire).
    unfold write_back, s32g_rcw_write, s32g_rcw_read, at24c01_write,
      at24c01_read.
    subst w r write read. rewrite Hwire.
    unfold memcpy. cbn [List.length Nat.leb Nat.add MAX_BUFSZ andb repeat tl
                        firstn skipn app].
    unfold bind, invoke, invoke_, ret, return_, eprintf, printf, emit.
    destruct (mcp2221_i2cWriteRead lib address [0; b0; b1; b2; b3] 0 s)
      as [[wres wbytes] s1].
    cbn [fst snd].
    repeat split.
    + intros Hw. apply Z.eqb_neq in Hw. rewrite Hw. reflexivity.
    + intros Hw Hr. apply Z.eqb_eq in Hw. rewrite Hw. cbn [negb].
      destruct (mcp2221_i2cWriteRead lib address [0] 4 s1)
        as [[rres rbytes] s2].
      cbn [fst snd] in *. apply Z.eqb_neq in Hr. rewrite Hr. reflexivity.
    + intros Hw Hr. apply Z.eqb_eq in Hw. rewrite Hw. cbn [negb].
      destruct (mcp2221_i2cWriteRead lib address [0] 4 s1)
        as [[rres rbytes] s2].
      cbn [fst snd] in *. apply Z.eqb_eq in Hr. rewrite Hr. cbn [negb].
      destruct (print_rcw_quiet St (rcw_unwire host rbytes) s2)
        as [Hres Hquiet].
      destruct (print_rcw (rcw_unwire host rbytes) s2) as [[res s3] report].
      cbn [fst] in Hres. injection Hres as -> ->.
      exists report. split; [reflexivity | exact Hquiet].
  - intros sscanf_x scanf_d changed_uninit args s s1 s2 t1 t2 Hhelp o Hrange
      Hopen Hbus read r1 word p w r2 H1 Hp Hw H2.
    rewrite main_no_help by exact Hhelp. fold o.
    unfold after_options.
    replace ((eeprom_address o <? 0) || (eeprom_address o >? 127))
      with false.
    2:{ symmetry. apply orb_false_iff. split.
        - apply Z.ltb_ge. lia.
        - rewrite Z.gtb_ltb. apply Z.ltb_ge. lia. }
    unfold bind. rewrite Hopen, Hbus.
    rewrite (read_modify_write_verified lib host changed_uninit o s2
               H1 Hp Hw H2).
    unfold with_output. cbn [fst snd app]. reflexivity.
Qed.

Lemma write_back_rereads_without_comparing_witness :
  (exists report : list event,
     write_back Sim.lib LittleEndian 0x50 0x000F0140 true
       (Sim.board [0x40; 0; 0; 0] true)
     = (Next tt, Sim.board [0x40; 0; 0; 0] true,
        Call (mcp_i2cWriteRead 0x50 [0; 0x40; 0x01; 0x0F; 0x00] 0)
        :: Call (mcp_i2cWriteRead 0x50 [0] 4)
        :: Printf "RCW: 0x%08x\n" [ArgX 0x00000040]
        :: report)
     /\ forallb (fun e => negb (is_error_message e)
                          && negb (is_hardware_access e)) report = true)
  /\ status (Sim.run false [Short "?"] (Sim.board [0x40; 0; 0; 0] true))
     = Some 0.
Proof.
  split.
  - exact (proj2 (proj2 (proj1 (write_back_rereads_without_comparing
                                  Sim.state Sim.lib LittleEndian)
                           0x50 0x000F0140 (Sim.board [0x40; 0; 0; 0] true)))
                 eq_refl eq_refl).
  - assert (Hrange : 0 <= 0x50 <= 0x7f) by lia.
    unfold Sim.run.
    rewrite (proj2 (write_back_rereads_without_comparing
                      Sim.state Sim.lib LittleEndian)
               Sim.sscanf_x None false [Short "?"]
               (Sim.board [0x40; 0; 0; 0] true)
               (Sim.board [0x40; 0; 0; 0] true)
               (Sim.board [0x40; 0; 0; 0] true)
               (snd (open_device Sim.lib None (Sim.board [0x40; 0; 0; 0] true)))
               (snd (prepare_bus Sim.lib (Sim.board [0x40; 0; 0; 0] true)))
               eq_refl Hrange eq_refl eq_refl eq_refl eq_refl eq_refl eq_refl).
    reflexivity.
Defined.

Section WholeMain.

Context {St : Type}.
Variable lib : libmcp2221 St.
Variable host : byte_order.
Variable sscanf_x : string -> option Z.
Variable scanf_d : option Z.
Variable changed_uninit : bool.

(** The calls of [main] are those of the part after the option loop. *)
Lemma main_calls args (s : St) :
  calls (events (main lib host sscanf_x scanf_d changed_uninit args s))
  = if requests_help args then []
    else calls (events (after_options lib host scanf_d changed_uninit
                          (options_after sscanf_x args default_options) s)).
Proof.
  destruct (requests_help args) eqn:Hhelp.
  - rewrite main_help by exact Hhelp. unfold events. cbn [snd].
    calc_calls. reflexivity.
  - rewrite main_no_help by exact Hhelp. unfold events, with_output.
    cbn [snd]. calc_calls. reflexivity.
Qed.

Lemma main_transfers args (s : St) address payload n :
  In (mcp_i2cWriteRead address payload n)
     (calls (events (main lib host sscanf_x scanf_d changed_uninit args s))) ->
  address = eeprom_address (options_after sscanf_x args default_options)
  /\ (n = 0%nat ->
      exists word,
        payload
        = 0 :: rcw_wire host
                 (fst (boot_policy changed_uninit
                         (boot_media
                            (options_after sscanf_x args default_options))
                         word))).
Proof.
  rewrite main_calls. destruct (requests_help args); [intros []|].
  apply after_options_transfers.
Qed.

End WholeMain.

(** C10.  A command line without [--boot] runs exactly as the same
    command line with [--boot=sd] put anywhere in it, and its target is
    SD: past the option loop [main] is the session with boot media SD in
    the options; every word such a run writes is the policy's word for
    target SD, with boot field 2; and after a first read that succeeded
    the word is written whenever it is not compliant for SD, with speed
    1 and the 50 ms wait period. *)
Theorem no_boot_option_means_sd :
  forall (St : Type) (lib : libmcp2221 St) (host : byte_order)
         (sscanf_x : string -> option Z) (scanf_d : option Z)
         (changed_uninit : bool) (args1 args2 : list getopt_result) (s : St),
    forallb (fun a => negb (is_boot_option a)) (args1 ++ args2) = true ->
    main lib host sscanf_x scanf_d changed_uninit (args1 ++ args2) s
    = main lib host sscanf_x scanf_d changed_uninit
           (args1 ++ Long IDX_BOOT "sd" :: args2) s
    /\ boot_media (options_after sscanf_x (args1 ++ args2) default_options)
       = BOOT_SD
    /\ (requests_help (args1 ++ args2) = false ->
        let address :=
          eeprom_address
            (options_after sscanf_x (args1 ++ args2) default_options) in
        0 <= address <= 0x7f ->
        main lib host sscanf_x scanf_d changed_uninit (args1 ++ args2) s
        = with_output
            (Puts "rcwtool: read/write I2C-EEPROM"
             :: getopt_messages (args1 ++ args2))
            (bind (open_device lib scanf_d)
               (fun _ =>
                  bind (prepare_bus lib)
                    (fun _ =>
                       read_modify_write lib host changed_uninit
                         {| boot_media := BOOT_SD;
                            eeprom_address := address |})) s))
    /\ (forall (address : Z) (payload : list Z),
          In (mcp_i2cWriteRead address payload 0)
             (calls (events (main lib host sscanf_x scanf_d changed_uninit
                               (args1 ++ args2) s))) ->
          exists word,
            payload
            = 0 :: rcw_wire host (fst (boot_policy changed_uninit BOOT_SD word))
            /\ rd rcon "boot" (fst (boot_policy changed_uninit BOOT_SD word))
               = boot_val BOOT_SD
            /\ rd sd "speed" (fst (boot_policy changed_uninit BOOT_SD word)) = 1
            /\ rd sd "wait" (fst (boot_policy changed_uninit BOOT_SD word))
               = WAIT_PERIOD_50MS)
    /\ (forall (address : Z) (s' : St),
          let o := {| boot_media := BOOT_SD; eeprom_address := address |} in
          let r := mcp2221_i2cWriteRead lib address [0] 4 s' in
          let word := rcw_unwire host (snd (fst r)) in
          let p := boot_policy changed_uninit BOOT_SD word in
          let w := mcp2221_i2cWriteRead lib address
                     (0 :: rcw_wire host (fst p)) 0 (snd r) in
          fst (fst r) = MCP2221_SUCCESS lib ->
          calls (events (read_modify_write lib host changed_uninit o s'))
          = mcp_i2cWriteRead address [0] 4
            :: (if snd p
                then mcp_i2cWriteRead address (0 :: rcw_wire host (fst p)) 0
                     :: (if fst (fst w) =? MCP2221_SUCCESS lib
                         then [mcp_i2cWriteRead address [0] 4] else [])
                else [])
            ++ [mcp_exit]
          /\ (compliant BOOT_SD word = false -> snd p = true)).
Proof.
  intros St lib host sscanf_x scanf_d changed_uninit args1 args2 s Hno.
  assert (Hsd : boot_media
                  (options_after sscanf_x (args1 ++ args2) default_options)
                = BOOT_SD).
  { apply (boot_media_kept sscanf_x (args1 ++ args2) default_options Hno). }
  split; [|split; [exact Hsd|split; [|split]]].
  - symmetry. apply main_ext.
    apply parse_args_insert; [reflexivity | reflexivity |].
    intros _.
    assert (Hsd1 : boot_media (options_after sscanf_x args1 default_options)
                   = BOOT_SD).
    { apply boot_media_kept. rewrite forallb_app in Hno.
      apply andb_true_iff in Hno. apply Hno. }
    destruct (options_after sscanf_x args1 default_options) as [b a].
    cbn in Hsd1. subst b. reflexivity.
  - intros Hhelp address Hrange.
    rewrite main_no_help by exact Hhelp. f_equal.
    subst address.
    destruct (options_after sscanf_x (args1 ++ args2) default_options)
      as [b a].
    cbn [boot_media eeprom_address] in *. subst b.
    unfold after_options. cbn [eeprom_address].
    replace ((a <? 0) || (a >? 127)) with false; [reflexivity|].
    symmetry. apply orb_false_iff. split.
    + apply Z.ltb_ge. lia.
    + rewrite Z.gtb_ltb. apply Z.ltb_ge. lia.
  - intros address payload Hin.
    destruct (main_transfers lib host sscanf_x scanf_d changed_uninit
                (args1 ++ args2) s address payload 0 Hin) as [_ Hword].
    destruct (Hword eq_refl) as [word Hpayload].
    rewrite Hsd in Hpayload.
    exists word. split; [exact Hpayload|].
    destruct (PolicyMore.result_fields changed_uninit BOOT_SD word)
      as (Hb & _ & Hfields).
    destruct (Hfields eq_refl) as [Hspeed Hwait].
    split; [exact Hb|]. split; [exact Hspeed | exact Hwait].
  - intros address s' o r word p w Hr. split.
    + apply (read_modify_write_calls lib host changed_uninit o s' Hr).
    + intros Hc. subst p.
      rewrite PolicyFacts.changed_flag.
      rewrite <- !orb_assoc.
      rewrite (orb_assoc (step_src word)).
      rewrite PolicyMore.steps_not_compliant, Hc.
      apply orb_true_r.
Qed.

Lemma no_boot_option_means_sd_witness :
  Sim.run false [Long IDX_ADDR "50"] (Sim.board [0x00; 0x01; 0; 0] false)
  = Sim.run false [Long IDX_ADDR "50"; Long IDX_BOOT "sd"]
      (Sim.board [0x00; 0x01; 0; 0] false)
  /\ exists word,
       [0; 0x40; 0x00; 0x0F; 0x00]
       = 0 :: rcw_wire LittleEndian (fst (boot_policy false BOOT_SD word))
       /\ rd rcon "boot" (fst (boot_policy false BOOT_SD word))
          = boot_val BOOT_SD
       /\ rd sd "speed" (fst (boot_policy false BOOT_SD word)) = 1
       /\ rd sd "wait" (fst (boot_policy false BOOT_SD word))
          = WAIT_PERIOD_50MS.
Proof.
  destruct (no_boot_option_means_sd Sim.state Sim.lib LittleEndian
              Sim.sscanf_x None false [Long IDX_ADDR "50"] []
              (Sim.board [0x00; 0x01; 0; 0] false) eq_refl)
    as (Hsame & _ & _ & Hwrites & _).
  split; [exact Hsame|].
  apply (Hwrites 0x50 [0; 0x40; 0x00; 0x0F; 0x00]).
  vm_compute. tauto.
Defined.

Section OptionOrder.

Variable sscanf_x : string -> option Z.

Lemma options_after_app a b o :
  options_after sscanf_x (a ++ b) o
  = options_after sscanf_x b (options_after sscanf_x a o).
Proof. unfold options_after. apply fold_left_app. Qed.

Lemma requests_help_app a b :
  requests_help (a ++ b) = requests_help a || requests_help b.
Proof.
  induction a as [|x a IH]; [reflexivity|].
  cbn [app]. rewrite (requests_help_cons x (a ++ b)), (requests_help_cons x a), IH.
  apply orb_assoc.
Qed.

Lemma getopt_messages_app a b :
  requests_help a = false ->
  getopt_messages (a ++ b) = getopt_messages a ++ getopt_messages b.
Proof.
  induction a as [|x a IH]; intros Ha; [reflexivity|].
  rewrite requests_help_cons in Ha. apply orb_false_iff in Ha.
  destruct Ha as [Hx Ha].
  cbn [app]. rewrite !getopt_messages_cons by exact Hx.
  rewrite IH by exact Ha. apply app_assoc.
Qed.

(** The fields of the options are kept by what does not assign them. *)
Lemma boot_media_unassigned : forall args o,
  forallb (fun a => negb (sets_boot_media a)) args = true ->
  boot_media (options_after sscanf_x args o) = boot_media o.
Proof.
  induction args as [|a rest IH]; intros o Hno; [reflexivity|].
  cbn [forallb] in Hno. apply andb_true_iff in Hno.
  destruct Hno as [Ha Hrest]. apply negb_true_iff in Ha.
  unfold options_after. cbn [fold_left].
  fold (options_after sscanf_x rest (option_step sscanf_x o a)).
  rewrite IH by exact Hrest.
  destruct a as [option_index optarg | c]; [|reflexivity].
  unfold sets_boot_media in Ha. unfold option_step.
  destruct (is_addr_option (Long option_index optarg)).
  - destruct (sscanf_x optarg); reflexivity.
  - destruct (is_boot_option (Long option_index optarg)); [|reflexivity].
    destruct (boot_token optarg); [discriminate Ha | reflexivity].
Qed.

Lemma address_unassigned : forall args o,
  forallb (fun a => negb (sets_address sscanf_x a)) args = true ->
  eeprom_address (options_after sscanf_x args o) = eeprom_address o.
Proof.
  induction args as [|a rest IH]; intros o Hno; [reflexivity|].
  cbn [forallb] in Hno. apply andb_true_iff in Hno.
  destruct Hno as [Ha Hrest]. apply negb_true_iff in Ha.
  unfold options_after. cbn [fold_left].
  fold (options_after sscanf_x rest (option_step sscanf_x o a)).
  rewrite IH by exact Hrest.
  destruct a as [option_index optarg | c]; [|reflexivity].
  unfold sets_address in Ha. unfold option_step.
  destruct (is_addr_option (Long option_index optarg)).
  - destruct (sscanf_x optarg); [discriminate Ha | reflexivity].
  - destruct (is_boot_option (Long option_index optarg)); [|reflexivity].
    destruct (boot_token optarg); reflexivity.
Qed.

End OptionOrder.

(** X18.  The order of the options.  An option [getopt_long] rejects
    adds its diagnostic to the standard error and changes nothing else
    of the run.  Of several [--boot] options the last one with a known
    medium decides: every word the run writes is the policy's word for
    that medium and carries it in the boot field.  Of several [--addr]
    options the last one that converts decides: every transfer of the
    run goes to that address, and when it lies outside 0..0x7f the run
    ends with -1 before any call into the library. *)
Theorem later_options_override :
  forall (St : Type) (lib : libmcp2221 St) (host : byte_order)
         (sscanf_x : string -> option Z) (scanf_d : option Z)
         (changed_uninit : bool)
         (args1 args2 : list getopt_result) (s : St),
    let run := main lib host sscanf_x scanf_d changed_uninit in
    (requests_help args1 = true ->
     run (args1 ++ Short "?" :: args2) s = run (args1 ++ args2) s)
    /\ (requests_help args1 = false ->
        exists rest,
          run (args1 ++ args2) s
          = with_output
              (Puts "rcwtool: read/write I2C-EEPROM" :: getopt_messages args1)
              rest
          /\ run (args1 ++ Short "?" :: args2) s
             = with_output
                 (Puts "rcwtool: read/write I2C-EEPROM"
                  :: getopt_messages args1 ++ [Diagnostic])
                 rest)
    /\ (forall t b,
          boot_token t = Some b ->
          forallb (fun a => negb (sets_boot_media a)) args2 = true ->
          forall address payload,
            In (mcp_i2cWriteRead address payload 0)
               (calls (events (run (args1 ++ Long IDX_BOOT t :: args2) s))) ->
            exists word,
              payload
              = 0 :: rcw_wire host (fst (boot_policy changed_uninit b word))
              /\ rd rcon "boot" (fst (boot_policy changed_uninit b word))
                 = boot_val b)
    /\ (forall t a,
          sscanf_x t = Some a ->
          forallb (fun x => negb (sets_address sscanf_x x)) args2 = true ->
          (forall address payload n,
              In (mcp_i2cWriteRead address payload n)
                 (calls (events (run (args1 ++ Long IDX_ADDR t :: args2) s))) ->
              address = a)
          /\ (requests_help (args1 ++ Long IDX_ADDR t :: args2) = false ->
              a < 0 \/ 0x7f < a ->
              status (run (args1 ++ Long IDX_ADDR t :: args2) s) = Some (-1)
              /\ calls (events (run (args1 ++ Long IDX_ADDR t :: args2) s))
                 = []
              /\ In (Eprintf "Error: illegal address: 0x%02x!\n" [ArgX a])
                    (events (run (args1 ++ Long IDX_ADDR t :: args2) s)))).
Proof.
  intros St lib host sscanf_x scanf_d changed_uninit args1 args2 s run.
  subst run. split; [|split; [|split]].
  - intros Hhelp.
    rewrite !main_help by (rewrite requests_help_app, Hhelp; reflexivity).
    assert (Hmsg : forall b, getopt_messages (args1 ++ b)
                             = getopt_messages args1).
    { clear - Hhelp. induction args1 as [|x a IH]; intros b; [discriminate|].
      cbn [app getopt_messages].
      destruct (requests_help [x]) eqn:Hx; [reflexivity|].
      rewrite requests_help_cons, Hx in Hhelp.
      rewrite (IH Hhelp). reflexivity. }
    rewrite !Hmsg. reflexivity.
  - intros Hhelp.
    assert (Hopts : options_after sscanf_x (args1 ++ Short "?" :: args2)
                      default_options
                    = options_after sscanf_x (args1 ++ args2) default_options).
    { rewrite (options_after_app sscanf_x args1 (Short "?" :: args2)),
        (options_after_app sscanf_x args1 args2). reflexivity. }
    assert (Hmsg : getopt_messages (args1 ++ Short "?" :: args2)
                   = getopt_messages args1 ++ Diagnostic :: getopt_messages args2).
    { rewrite getopt_messages_app by exact Hhelp. reflexivity. }
    assert (Hmsg0 : getopt_messages (args1 ++ args2)
                    = getopt_messages args1 ++ getopt_messages args2).
    { apply getopt_messages_app. exact Hhelp. }
    destruct (requests_help args2) eqn:Hhelp2.
    + exists (Return 0, s, getopt_messages args2 ++ help_text).
      rewrite (main_help St lib host sscanf_x scanf_d changed_uninit
                 (args1 ++ args2))
        by (rewrite requests_help_app, Hhelp2; apply orb_true_r).
      rewrite (main_help St lib host sscanf_x scanf_d changed_uninit
                 (args1 ++ Short "?" :: args2))
        by (rewrite requests_help_app,
              (requests_help_cons (Short "?") args2), Hhelp2;
            apply orb_true_r).
      rewrite Hmsg, Hmsg0. unfold with_output. cbn [fst snd app].
      rewrite <- !app_assoc. split; reflexivity.
    + exists (with_output (getopt_messages args2)
                (after_options lib host scanf_d changed_uninit
                   (options_after sscanf_x (args1 ++ args2) default_options)
                   s)).
      rewrite (main_no_help lib host sscanf_x scanf_d changed_uninit
                 (args1 ++ args2))
        by (rewrite requests_help_app, Hhelp, Hhelp2; reflexivity).
      rewrite (main_no_help lib host sscanf_x scanf_d changed_uninit
                 (args1 ++ Short "?" :: args2))
        by (rewrite requests_help_app,
              (requests_help_cons (Short "?") args2), Hhelp, Hhelp2;
            reflexivity).
      rewrite Hopts, Hmsg, Hmsg0. unfold with_output. cbn [fst snd app].
      rewrite <- !app_assoc. split; reflexivity.
  - intros t b Ht Hno address payload Hin.
    destruct (main_transfers lib host sscanf_x scanf_d changed_uninit
                _ s address payload 0 Hin) as [_ Hword].
    destruct (Hword eq_refl) as [word Hpayload].
    assert (Hb : boot_media
                   (options_after sscanf_x (args1 ++ Long IDX_BOOT t :: args2)
                      default_options) = b).
    { rewrite (options_after_app sscanf_x args1). unfold options_after at 1.
      cbn [fold_left].
      fold (options_after sscanf_x args2
              (option_step sscanf_x
                 (options_after sscanf_x args1 default_options)
                 (Long IDX_BOOT t))).
      rewrite boot_media_unassigned by exact Hno.
      cbn [option_step is_addr_option is_boot_option IDX_BOOT IDX_HELP
           IDX_ADDR Z.eqb Pos.eqb negb andb].
      rewrite Ht. reflexivity. }
    rewrite Hb in Hpayload. exists word. split; [exact Hpayload|].
    apply PolicyMore.result_fields.
  - intros t a Ht Hno.
    assert (Ha : eeprom_address
                   (options_after sscanf_x (args1 ++ Long IDX_ADDR t :: args2)
                      default_options) = a).
    { rewrite (options_after_app sscanf_x args1). unfold options_after at 1.
      cbn [fold_left].
      fold (options_after sscanf_x args2
              (option_step sscanf_x
                 (options_after sscanf_x args1 default_options)
                 (Long IDX_ADDR t))).
      rewrite address_unassigned by exact Hno.
      cbn [option_step is_addr_option is_boot_option IDX_BOOT IDX_HELP
           IDX_ADDR Z.eqb Pos.eqb negb andb].
      rewrite Ht. reflexivity. }
    split.
    + intros address payload n Hin.
      destruct (main_transfers lib host sscanf_x scanf_d changed_uninit
                  _ s address payload n Hin) as [Haddr _].
      rewrite Haddr. exact Ha.
    + intros Hhelp Hout.
      rewrite main_no_help by exact Hhelp.
      unfold after_options. rewrite Ha.
      replace ((a <? 0) || (a >? 127)) with true.
      * unfold status, events, with_output. cbn [fst snd].
        split; [reflexivity|]. split.
        -- calc_calls. reflexivity.
        -- apply in_cons, in_or_app. right. simpl. tauto.
      * symmetry. apply orb_true_iff. destruct Hout as [H|H].
        -- left. apply Z.ltb_lt. exact H.
        -- right. rewrite Z.gtb_ltb. apply Z.ltb_lt. exact H.
Qed.

Lemma later_options_override_witness :
  (exists word,
      [0; 0x60; 0x00; 0x00; 0x00]
      = 0 :: rcw_wire LittleEndian (fst (boot_policy false BOOT_MMC word))
      /\ rd rcon "boot" (fst (boot_policy false BOOT_MMC word))
         = boot_val BOOT_MMC)
  /\ status (Sim.run false [Long IDX_ADDR "50"; Long IDX_ADDR "80";
                            Long IDX_BOOT "sd"]
               (Sim.board [0x40; 0; 0; 0] false)) = Some (-1).
Proof.
  split.
  - destruct (later_options_override Sim.state Sim.lib LittleEndian
                Sim.sscanf_x None false [Long IDX_BOOT "qspi"]
                [Long IDX_ADDR "50"]
                (Sim.board [0x40; 0; 0; 0] false)) as (_ & _ & Hboot & _).
    apply (Hboot "mmc" BOOT_MMC eq_refl eq_refl 0x50).
    vm_compute. tauto.
  - destruct (later_options_override Sim.state Sim.lib LittleEndian
                Sim.sscanf_x None false [Long IDX_ADDR "50"]
                [Long IDX_BOOT "sd"]
                (Sim.board [0x40; 0; 0; 0] false)) as (_ & _ & _ & Haddr).
    destruct (Haddr "80" 0x80 eq_refl eq_refl) as [_ Hfatal].
    apply Hfatal; [reflexivity | right; lia].
Defined.
